(** * kylycht/exchange: the rate cache and the batch aggregator

    A shallow embedding of the Go packages [model], [service], [storage],
    [service/forex], [storage/cache] and [storage/persistence], and the
    properties of the lookup, refresh, merge, chunking and catalog code.

    Conventions of the embedding:
    - [float64] is Rocq's primitive binary64 [float]; [1.0 / rate] is
      [PrimFloat.div 1 rate];
    - [map[string]map[string]float64] is [gmap string (gmap string float)];
      reading a missing key of a Go map (or of a nil map) gives the zero
      value, written out with [default];
    - an [error] is its message, [nil] is [None];
    - a Go function returning [(v, err)] returns the pair [(v, err)], with the
      zero value of the type where the source returns it;
    - what the network, the database, the semaphore and the scheduler answer
      is an explicit argument of the function that asks. *)

From Stdlib Require Import Floats.PrimFloat ZArith Ascii String Permutation.
From stdpp Require Import gmap strings list fin_maps pretty.

Local Open Scope string_scope.

(** Package-independent Go vocabulary. *)
Module golang.

(** The [error] interface: [None] is [nil], [Some msg] an error whose
    [Error()] is [msg]. *)
Definition error : Type := option string.

(** [strings.ToUpper] on the ASCII range, where it maps a-z to A-Z and
    leaves every other byte alone. [cache.Get] below takes the
    normalisation as an argument; this is the instance examples run on. *)
Definition upperByte (c : ascii) : ascii :=
  let n := nat_of_ascii c in
  if (97 <=? n)%nat && (n <=? 122)%nat then ascii_of_nat (n - 32) else c.

Fixpoint ToUpperASCII (s : string) : string :=
  match s with
  | EmptyString => EmptyString
  | String c s' => String (upperByte c) (ToUpperASCII s')
  end.

(** [s[from:to]] on a slice, for [0 <= from <= to <= len(s)]. *)
Definition slice {A} (s : list A) (from to : Z) : list A :=
  take (Z.to_nat (to - from)) (drop (Z.to_nat from) s).

End golang.

(** ** package model *)
Module model.

(** [type currency string] *)
Definition currency : Type := string.
Definition Fiat : currency := "FIAT".
Definition Crypto : currency := "CRYPTO".

Record Currency : Type := mkCurrency {
  Name : string;
  Symbol : string;
  CurrencyType : currency
}.

Record ExchangeRate : Type := mkExchangeRate {
  Base : Currency;
  Target : Currency;
  Rate : float
}.

(** [model.Currency{Symbol: s, CurrencyType: t}]: [Name] is left at its
    zero value. *)
Definition CurrencyOf (s : string) (t : currency) : Currency :=
  {| Name := ""; Symbol := s; CurrencyType := t |}.

(** [model.ExchangeRate{}] *)
Definition zeroExchangeRate : ExchangeRate :=
  {| Base := {| Name := ""; Symbol := ""; CurrencyType := "" |};
     Target := {| Name := ""; Symbol := ""; CurrencyType := "" |};
     Rate := 0%float |}.

End model.

(** A two-level rate table [base symbol -> target symbol -> rate]. *)
Abbreviation RateTable := (gmap string (gmap string float)).

(** ** package service *)
Module service.
Import golang model.

Record LookUp : Type := mkLookUp {
  FiatToCrypto : RateTable;
  CryptoToFiat : RateTable;
  FiatLookupErr : error;
  CryptoLookupErr : error
}.

(** The part of [interface Exchange] the cache calls. One value of the
    record is what the client answers to one refresh. *)
Record Exchange : Type := mkExchange {
  GetAllRates : list Currency -> list Currency -> LookUp
}.

End service.

(** ** package storage *)
Module storage.
Import golang model.

(** [interface Storage]: [Load] gives the fiat list, the crypto list and
    an error. One value of the record is what the database answers to one
    refresh. *)
Record Storage : Type := mkStorage {
  Load : list Currency * list Currency * error
}.

End storage.

(** ** package storage/cache *)
Module cache.
Import golang model service storage.

(** The data of [MCache]: the two tables guarded by the lock. *)
Record MCache : Type := mkMCache {
  fiatToCrypto : RateTable;
  cryptoToFiat : RateTable
}.

Section Get.
(** [strings.ToUpper] *)
Variable ToUpper : string -> string.

Definition errInvalidConversion (from to : string) : error :=
  Some ("invalid conversion for pair: " +:+ from +:+ "/" +:+ to).

(** The second [if] of [Get] and the final [return]: the lookup as F2C. *)
Definition lookupF2C (m : MCache) (from to : string)
  : ExchangeRate * error :=
  let unknown := (zeroExchangeRate, errInvalidConversion from to) in
  match fiatToCrypto m !! from with
  | Some ratesMap =>
      match ratesMap !! to with
      | Some rate =>
          ({| Base := CurrencyOf from Fiat;
              Target := CurrencyOf to Crypto;
              Rate := rate |}, None)
      | None =>
          match cryptoToFiat m !! to with
          | Some rates =>
              match rates !! from with
              | Some rate =>
                  ({| Base := CurrencyOf from Fiat;
                      Target := CurrencyOf to Crypto;
                      Rate := (1 / rate)%float |}, None)
              | None => unknown
              end
          | None => unknown
          end
      end
  | None => unknown
  end.

(** [func (m *MCache) Get(from string, to string)] *)
Definition Get (m : MCache) (from to : string) : ExchangeRate * error :=
  let from := ToUpper from in
  let to := ToUpper to in
  match cryptoToFiat m !! from with
  | Some ratesMap =>
      match ratesMap !! to with
      | Some rate =>
          ({| Base := CurrencyOf from Crypto;
              Target := CurrencyOf to Fiat;
              Rate := rate |}, None)
      | None =>
          match fiatToCrypto m !! to with
          | Some fiatsRates =>
              match fiatsRates !! from with
              | Some rate =>
                  ({| Base := CurrencyOf from Crypto;
                      Target := CurrencyOf to Fiat;
                      Rate := (1 / rate)%float |}, None)
              | None => lookupF2C m from to
              end
          | None => lookupF2C m from to
          end
      end
  | None => lookupF2C m from to
  end.
End Get.

(** [func (m *MCache) loadAndCache() error], on what the storage and the
    exchange client answer to this refresh. *)
Definition loadAndCache (db : Storage) (exchangeClient : Exchange)
    (m : MCache) : MCache * error :=
  let '(fiats, cryptos, err) := Load db in
  match err with
  | Some _ => (m, err)
  | None =>
      let lookup := GetAllRates exchangeClient cryptos fiats in
      match CryptoLookupErr lookup with
      | Some _ => (m, CryptoLookupErr lookup)
      | None =>
          match FiatLookupErr lookup with
          | Some _ => (m, FiatLookupErr lookup)
          | None =>
              ({| fiatToCrypto := FiatToCrypto lookup;
                  cryptoToFiat := CryptoToFiat lookup |}, None)
          end
      end
  end.

(** The ticker loop of [init]: one [loadAndCache] per tick, its error
    logged and dropped. *)
Definition refreshLoop (ticks : list (Storage * Exchange)) (m : MCache)
    : MCache :=
  foldl (fun m tick => (loadAndCache tick.1 tick.2 m).1) m ticks.

(** [New] with [init]: the first refresh runs on the empty cache and its
    error is the constructor's; the ticker only starts after a success. *)
Definition New (db : Storage) (exchangeClient : Exchange)
    (ticks : list (Storage * Exchange)) : MCache * error :=
  let c := {| fiatToCrypto := ∅; cryptoToFiat := ∅ |} in
  let '(c1, err) := loadAndCache db exchangeClient c in
  match err with
  | Some _ => (c1, err)
  | None => (refreshLoop ticks c1, None)
  end.

End cache.

(** ** package service/forex *)
Module forex.
Import golang.

(** [type Response struct] *)
Record Response : Type := mkResponse {
  Base : string;
  Results : gmap string float;
  Updated : string;
  Ms : Z
}.

(** [&Response{}] *)
Definition zeroResponse : Response :=
  {| Base := ""; Results := ∅; Updated := ""; Ms := 0 |}.

(** What [json.NewDecoder(resp.Body).Decode(v)] does to a [v] of type [V]:
    it fills [v], or meets an empty body ([io.EOF]), or fails and leaves
    [v] as far as it got. *)
Inductive Decoded (V : Type) : Type :=
| DecodeOk (v : V)
| DecodeEOF
| DecodeErr (partial : V) (msg : string).
Arguments DecodeOk {V} v.
Arguments DecodeEOF {V}.
Arguments DecodeErr {V} partial msg.

(** [*http.Response], its body seen through the decoder. *)
Record HttpResponse (V : Type) : Type := mkHttpResponse {
  StatusCode : Z;
  Body : Decoded V
}.
Arguments mkHttpResponse {V} StatusCode Body.
Arguments StatusCode {V} h.
Arguments Body {V} h.

(** What the world answers to one [Do]: the rate limiter's [Wait], then
    the HTTP round trip (an error message or a response). *)
Record HttpAnswer (V : Type) : Type := mkHttpAnswer {
  limiterWait : error;
  roundTrip : string + HttpResponse V
}.
Arguments mkHttpAnswer {V} limiterWait roundTrip.
Arguments limiterWait {V} h.
Arguments roundTrip {V} h.

(** [http.StatusOK] *)
Definition StatusOK : Z := 200.

(** [func (f *client) Do(ctx, req, v interface{}) error] for a [v] that is
    decoded from JSON (the [default] case of the type switch). Returns the
    [v] it leaves behind and the error. *)
Definition Do {V} (answer : HttpAnswer V) (v : V) : V * error :=
  match limiterWait answer with
  | Some e => (v, Some e)
  | None =>
      match roundTrip answer with
      | inl e => (v, Some e)
      | inr resp =>
          if negb (StatusCode resp =? StatusOK)%Z
          then (v, Some ("unable to fetch rate due to code: "
                           +:+ pretty (StatusCode resp)))
          else
            match Body resp with
            | DecodeOk v' => (v', None)
            | DecodeEOF => (v, None)
            | DecodeErr partial msg => (partial, Some msg)
            end
      end
  end.

(** The upstream rate API: the answer to [GET /fetch-one?from=..&to=..]. *)
Record Provider : Type := mkProvider {
  fetchOne : string -> string -> HttpAnswer Response
}.

(** [func (f *client) GetRate(ctx, from, to string)]. [baseURL.Parse] and
    [http.NewRequest] are called on constants and do not fail. *)
Definition GetRate (p : Provider) (from to : string)
    : model.ExchangeRate * error :=
  let '(r, err) := Do (fetchOne p from to) zeroResponse in
  match err with
  | Some _ => (model.zeroExchangeRate, err)
  | None =>
      (model.mkExchangeRate
         (model.CurrencyOf (Base r) model.Fiat)
         (model.CurrencyOf to model.Crypto)
         (default 0%float (Results r !! to)), None)
  end.

(** One iteration of the body of [mergeResults] on an open receive. *)
Definition mergeOne (storage : RateTable) (er : model.ExchangeRate)
    : RateTable :=
  let base := model.Symbol (model.Base er) in
  let target := model.Symbol (model.Target er) in
  match storage !! base with
  | None => <[base := {[target := model.Rate er]}]> storage
  | Some rates => <[base := <[target := model.Rate er]> rates]> storage
  end.

(** What one [select] of the merge loop observes: the context is done, or
    a receive [er, isOpen := <-resultsC]. *)
Inductive SelectEvent : Type :=
| CtxDone
| Recv (er : model.ExchangeRate) (isOpen : bool).

(** Where the merge task stands once the observed events are used up:
    still inside its [for], or returned; with the [storage] map as the
    task has mutated it so far. *)
Inductive MergeState : Type :=
| Running (storage : RateTable)
| Returned (storage : RateTable).

Definition storageOf (s : MergeState) : RateTable :=
  match s with Running t => t | Returned t => t end.

(** [func (f *client) mergeResults(ctx, resultsC, storage)], one [select]
    per event. In [case er, isOpen := <-resultsC] the [break] under
    [!isOpen] leaves the [select], and the [for] goes round again. *)
Fixpoint mergeResults (events : list SelectEvent) (storage : RateTable)
    : MergeState :=
  match events with
  | [] => Running storage
  | CtxDone :: _ => Returned storage
  | Recv er isOpen :: rest =>
      if negb isOpen
      then mergeResults rest storage
      else mergeResults rest (mergeOne storage er)
  end.

(** The events of [ers] arriving on the open channel. *)
Definition delivered (ers : list model.ExchangeRate) : list SelectEvent :=
  map (fun er => Recv er true) ers.

(** [n] receives on the closed and drained channel: each gives the zero
    value and [isOpen = false] at once. *)
Definition closedReceives (n : nat) : list SelectEvent :=
  replicate n (Recv model.zeroExchangeRate false).

(** [batchSize = 1 // api allows 10, but is broken] *)
Definition batchSize : Z := 1.

(** [int(math.Ceil(float64(leftToProcess) / float64(batchSize)))] for a
    slice length (exact in float64 below 2^53). *)
Definition batchNumOf (leftToProcess : Z) : Z :=
  (leftToProcess + batchSize - 1) / batchSize.

(** The [for batchNum > 0] loop of [getCryptoRates]. [acquire k] is the
    answer to the [k]-th [sem.Acquire]; the result lists the [(from, to)]
    of the workers launched, in order, and the error the loop returned
    with, if any. *)
Fixpoint launchLoop (acquire : nat -> error) (k : nat) (batchNum : nat)
    (leftToProcess start end_ : Z) : list (Z * Z) * error :=
  match batchNum with
  | O => ([], None)
  | S batchNum' =>
      let '(start, end_) :=
        if (leftToProcess >? batchSize)%Z
        then (end_, end_ + batchSize)%Z
        else (end_, end_ + leftToProcess)%Z in
      match acquire k with
      | Some e => ([], Some e)
      | None =>
          let '(ws, err) :=
            launchLoop acquire (S k) batchNum'
              (leftToProcess - batchSize)%Z start end_ in
          ((start, end_) :: ws, err)
      end
  end.

(** One run of [getCryptoRates]: the workers it launched and, when it has
    returned, what it returned. *)
Record CryptoRun : Type := mkCryptoRun {
  launched : list (Z * Z);
  returned : option (RateTable * error)
}.

(** [func (f *client) getCryptoRates(ctx, symbols []string)]. [events] is
    what the merge task observes. A failed [sem.Acquire] returns
    [nil, err]; otherwise the caller waits on [mergeDoneC] and returns the
    merged table once [mergeResults] has returned. *)
Definition getCryptoRates (acquire : nat -> error)
    (events : list SelectEvent) (symbols : list string) : CryptoRun :=
  let leftToProcess := Z.of_nat (length symbols) in
  let batchNum := batchNumOf leftToProcess in
  let '(ws, err) :=
    launchLoop acquire 0 (Z.to_nat batchNum) leftToProcess 0 0 in
  match err with
  | Some _ => {| launched := ws; returned := Some (∅, err) |}
  | None =>
      match mergeResults events ∅ with
      | Returned cryptoToFiat =>
          {| launched := ws; returned := Some (cryptoToFiat, None) |}
      | Running _ => {| launched := ws; returned := None |}
      end
  end.

(** The argument [symbols[from:to]] of the provider call of each worker. *)
Definition workerPairs (symbols : list string) (ws : list (Z * Z))
    : list (list string) :=
  map (fun w => slice symbols w.1 w.2) ws.

(** The nested [for] of [GetAllRates], on the pair of locals
    [(fiatTargets, cryptoCombos)]. *)
Definition buildCombos (cryptos fiats : list model.Currency)
    : gmap string string * list string :=
  foldl (fun st fiat =>
    foldl (fun (st : gmap string string * list string) crypto =>
      (<[model.Symbol fiat := model.Symbol crypto]> st.1,
       (st.2 ++ [model.Symbol crypto +:+ "/" +:+ model.Symbol fiat])%list))
      st cryptos)
    (∅, []) fiats.

Definition fiatTargets (cryptos fiats : list model.Currency)
    : gmap string string := (buildCombos cryptos fiats).1.

Definition cryptoCombos (cryptos fiats : list model.Currency)
    : list string := (buildCombos cryptos fiats).2.

(** [func (f *client) GetAllRates(ctx, cryptos, fiats)]. The two passes run
    in goroutines that write disjoint locals; [fiatPass] and [cryptoPass]
    are what [getFiatRates] and [getCryptoRates] return, [None] while a
    pass has not returned ([wg.Wait] then blocks). *)
Definition GetAllRates
    (fiatPass : gmap string string -> option (RateTable * error))
    (cryptoPass : list string -> option (RateTable * error))
    (cryptos fiats : list model.Currency) : option service.LookUp :=
  match fiatPass (fiatTargets cryptos fiats),
        cryptoPass (cryptoCombos cryptos fiats) with
  | Some (fiatToCryptoRates, fiatFetchErr),
    Some (cryptoToFiatRates, cryptoFetchErr) =>
      Some {| service.FiatToCrypto := fiatToCryptoRates;
              service.CryptoToFiat := cryptoToFiatRates;
              service.FiatLookupErr := fiatFetchErr;
              service.CryptoLookupErr := cryptoFetchErr |}
  | _, _ => None
  end.

End forex.

(** ** Vocabulary of the properties *)

(** [t[base][target]], when both keys are present. *)
Definition entry (t : RateTable) (base target : string) : option float :=
  t !! base ≫= (.!! target).



(** The answers of [Get]. *)
Definition directC2F (from to : string) (rate : float) : model.ExchangeRate :=
  {| model.Base := model.CurrencyOf from model.Crypto;
     model.Target := model.CurrencyOf to model.Fiat;
     model.Rate := rate |}.

Definition directF2C (from to : string) (rate : float) : model.ExchangeRate :=
  {| model.Base := model.CurrencyOf from model.Fiat;
     model.Target := model.CurrencyOf to model.Crypto;
     model.Rate := rate |}.

(** What the client answered to the refresh on the lists the database gave. *)
Definition refreshAnswer (db : storage.Storage)
    (exchangeClient : service.Exchange) : service.LookUp :=
  service.GetAllRates exchangeClient
    (storage.Load db).1.2 (storage.Load db).1.1.

(** The refresh fails: the catalog load, the crypto pass or the fiat pass
    reports an error. *)
Definition refreshFails (db : storage.Storage)
    (exchangeClient : service.Exchange) : Prop :=
  (storage.Load db).2 ≠ None
  ∨ service.CryptoLookupErr (refreshAnswer db exchangeClient) ≠ None
  ∨ service.FiatLookupErr (refreshAnswer db exchangeClient) ≠ None.

(** The pair string of one element of the cross product. *)
Definition pairString (crypto fiat : model.Currency) : string :=
  model.Symbol crypto +:+ "/" +:+ model.Symbol fiat.

(** The chunk [[i, i+1)]. *)
Definition singletonChunk (i : nat) : Z * Z := (Z.of_nat i, Z.of_nat i + 1)%Z.

(** ** Concrete tables, answers and runs *)
Module examples.
Import golang model service storage.

(** Only the fiat pass delivered: [USD -> BTC = 0.5]. *)
Definition fiatOnly : cache.MCache :=
  {| cache.fiatToCrypto := {[ "USD" := {[ "BTC" := 0.5%float ]} ]};
     cache.cryptoToFiat := ∅ |}.

(** [BTC] is a crypto base with a rate for [EUR] only, and the fiat pass
    delivered [USD -> BTC = 0.5]. *)
Definition partialCrypto : cache.MCache :=
  {| cache.fiatToCrypto := {[ "USD" := {[ "BTC" := 0.5%float ]} ]};
     cache.cryptoToFiat := {[ "BTC" := {[ "EUR" := 46000%float ]} ]} |}.

(** The scenario of the two passes on fiats [USD], [EUR] and crypto [BTC]. *)
Definition scenario : cache.MCache :=
  {| cache.fiatToCrypto :=
       {[ "USD" := {[ "BTC" := 0.5%float ]};
          "EUR" := {[ "BTC" := 0.25%float ]} ]};
     cache.cryptoToFiat :=
       {[ "BTC" := {[ "USD" := 50000%float; "EUR" := 46000%float ]} ]} |}.

(** [XRP] is listed both as a crypto and as a fiat: it is a base of both
    tables, and [BTC] is a fiat base with target [XRP]. *)
Definition overlapping : cache.MCache :=
  {| cache.fiatToCrypto :=
       {[ "XRP" := {[ "BTC" := 2%float ]};
          "BTC" := {[ "XRP" := 4%float ]} ]};
     cache.cryptoToFiat := {[ "XRP" := {[ "USD" := 0.5%float ]} ]} |}.

Definition usd : Currency :=
  {| Name := "US DOLLAR"; Symbol := "USD"; CurrencyType := Fiat |}.
Definition eur : Currency :=
  {| Name := "EURO"; Symbol := "EUR"; CurrencyType := Fiat |}.
Definition btc : Currency :=
  {| Name := "BITCOIN"; Symbol := "BTC"; CurrencyType := Crypto |}.
Definition eth : Currency :=
  {| Name := "ETHEREUM"; Symbol := "ETH"; CurrencyType := Crypto |}.

(** The provider answers [200] with a body that has a rate for [ETH]
    only, whatever was asked. *)
Definition ethOnly : forex.Provider :=
  {| forex.fetchOne := fun _ _ =>
       {| forex.limiterWait := None;
          forex.roundTrip := inr
            {| forex.StatusCode := 200;
               forex.Body := forex.DecodeOk
                 {| forex.Base := "USD";
                    forex.Results := {[ "ETH" := 0.25%float ]};
                    forex.Updated := "2024-01-01 00:00:00";
                    forex.Ms := 3 |} |} |} |}.



(** A database that lists [usd] and [btc], and a client that answers the
    refresh with [zeroTable] and no error. *)
Definition db : Storage := {| Load := ([usd], [btc], None) |}.


(** A client whose crypto pass failed. *)
Definition cryptoFailed : Exchange :=
  {| GetAllRates := fun _ _ =>
       {| FiatToCrypto := {[ "USD" := {[ "BTC" := 0.5%float ]} ]};
          CryptoToFiat := ∅;
          FiatLookupErr := None;
          CryptoLookupErr := Some "context deadline exceeded" |} |}.

Definition btcUsd : ExchangeRate := directC2F "BTC" "USD" 50000%float.
Definition btcEur : ExchangeRate := directC2F "BTC" "EUR" 46000%float.

End examples.

(** ** package strings of Go, as far as [GetCryptoRates] calls it *)
Module gostrings.

(** [strings.Split(s, sep)] for a separator of one byte: the pieces of [s]
    between the separators, so one piece more than there are separators
    ([Split("", "/")] is [[""]]). *)
Fixpoint Split (s : string) (sep : ascii) : list string :=
  match s with
  | EmptyString => [EmptyString]
  | String c s' =>
      if Ascii.eqb c sep then EmptyString :: Split s' sep
      else
        match Split s' sep with
        | piece :: pieces => String c piece :: pieces
        | [] => [String c EmptyString]
        end
  end.

(** [strings.Join(elems, sep)] *)
Definition Join (elems : list string) (sep : string) : string :=
  String.concat sep elems.

(** A call that may panic at run time. *)
Inductive Outcome (A : Type) : Type :=
| Done (a : A)
| Panic (msg : string).
Arguments Done {A} a.
Arguments Panic {A} msg.

(** [for k, v := range m] yields every entry of [m] once, in an order Go
    does not fix: [range] is an order the run may take. *)
Definition rangeOrder {V} (range : gmap string V → list (string * V)) : Prop :=
  ∀ m, range m ≡ₚ map_to_list m.

End gostrings.

(** ** package service/forex, the batch call and the fiat pass *)
Module fetch.
Import golang gostrings.

(** The anonymous [struct { Prices map[string]float64 }] of
    [GetCryptoRates]. *)
Record PricesResponse : Type := mkPricesResponse {
  Prices : gmap string float
}.

Definition zeroPrices : PricesResponse := {| Prices := ∅ |}.

(** The body of the [range] loop of [GetCryptoRates] for one entry:
    [tokens[0]] and [tokens[1]] of the split pair, the second one out of
    range when the pair has no [/]. *)
Definition rateOfPair (key : string) (rate : float)
    : Outcome model.ExchangeRate :=
  match Split key "/" with
  | base :: target :: _ =>
      Done (model.mkExchangeRate
              (model.CurrencyOf base model.Crypto)
              (model.CurrencyOf target model.Fiat) rate)
  | [_] => Panic "runtime error: index out of range [1] with length 1"
  | [] => Panic "runtime error: index out of range [0] with length 0"
  end.

(** [for pair, rate := range resp.Prices { result = append(result, ..) }] on
    the entries in the order the range yields them ([key] is the [pair] of
    the source). *)
Fixpoint rangePrices (entries : list (string * float))
    (result : list model.ExchangeRate) : Outcome (list model.ExchangeRate) :=
  match entries with
  | [] => Done result
  | (key, rate) :: rest =>
      match rateOfPair key rate with
      | Done er => rangePrices rest (result ++ [er])%list
      | Panic msg => Panic msg
      end
  end.

(** [func (f *client) GetCryptoRates(ctx, pairs []string)]. [fetchPrices] is
    the answer to [GET /crypto/fetch-prices?pairs=..] on the joined pairs. *)
Definition GetCryptoRates
    (fetchPrices : string → forex.HttpAnswer PricesResponse)
    (range : gmap string float → list (string * float))
    (pairs : list string) : Outcome (list model.ExchangeRate * error) :=
  let '(resp, err) := forex.Do (fetchPrices (Join pairs ",")) zeroPrices in
  match err with
  | Some _ => Done ([], err)
  | None =>
      match rangePrices (range (Prices resp)) [] with
      | Done result => Done (result, None)
      | Panic msg => Panic msg
      end
  end.

(** The [for fiatSymbol, cyrptoSymbol := range fiatTargets] loop of
    [getFiatRates] on the entries in range order: [acquire k] answers the
    [k]-th [sem.Acquire]; the result lists the [(fs, cs)] of the workers
    launched and the error the loop returned with, if any. *)
Fixpoint fiatLaunchLoop (acquire : nat → error) (k : nat)
    (entries : list (string * string)) : list (string * string) * error :=
  match entries with
  | [] => ([], None)
  | (fiatSymbol, cyrptoSymbol) :: rest =>
      match acquire k with
      | Some e => ([], Some e)
      | None =>
          let '(ws, err) := fiatLaunchLoop acquire (S k) rest in
          ((fiatSymbol, cyrptoSymbol) :: ws, err)
      end
  end.

(** One run of [getFiatRates]: the [GetRate(fs, cs)] calls of the workers
    it launched and, when it has returned, what it returned. *)
Record FiatRun : Type := mkFiatRun {
  asked : list (string * string);
  returned : option (RateTable * error)
}.

(** [func (f *client) getFiatRates(ctx, fiatTargets map[string]string)]. *)
Definition getFiatRates (acquire : nat → error)
    (events : list forex.SelectEvent)
    (range : gmap string string → list (string * string))
    (fiatTargets : gmap string string) : FiatRun :=
  let '(ws, err) := fiatLaunchLoop acquire 0 (range fiatTargets) in
  match err with
  | Some _ => {| asked := ws; returned := Some (∅, err) |}
  | None =>
      match forex.mergeResults events ∅ with
      | forex.Returned fiatToCrypto =>
          {| asked := ws; returned := Some (fiatToCrypto, None) |}
      | forex.Running _ => {| asked := ws; returned := None |}
      end
  end.

(** What the semaphores and the schedulers of the two passes answer to one
    [GetAllRates]. *)
Record Passes : Type := mkPasses {
  fiatPermits : nat → error;
  fiatEvents : list forex.SelectEvent;
  fiatRange : gmap string string → list (string * string);
  cryptoPermits : nat → error;
  cryptoEvents : list forex.SelectEvent
}.

(** [GetAllRates] on its two passes. *)
Definition GetAllRates (w : Passes) (cryptos fiats : list model.Currency)
    : option service.LookUp :=
  forex.GetAllRates
    (fun targets =>
       returned (getFiatRates (fiatPermits w) (fiatEvents w) (fiatRange w)
                   targets))
    (fun combos =>
       forex.returned
         (forex.getCryptoRates (cryptoPermits w) (cryptoEvents w) combos))
    cryptos fiats.

End fetch.

(** ** package storage/persistence *)
Module persistence.
Import golang model.

(** One [rows.Next()] that gave a row: what [rows.Scan] made of it. *)
Inductive Row : Type :=
| Scanned (c : Currency)
| ScanFailed (msg : string).

(** The [for rows.Next()] loop of [Load] on the locals [fiats] and
    [cryptos]. *)
Fixpoint scanRows (rows : list Row) (fiats cryptos : list Currency)
    : list Currency * list Currency * error :=
  match rows with
  | [] => (fiats, cryptos, None)
  | ScanFailed msg :: _ => (fiats, cryptos, Some msg)
  | Scanned c :: rest =>
      if String.eqb (CurrencyType c) Fiat
      then scanRows rest (fiats ++ [c])%list cryptos
      else scanRows rest fiats (cryptos ++ [c])%list
  end.

(** [func (p *Persistence) Load(ctx)]. [query] is what [dbConn.Query]
    gave: an error, or the rows of the available currencies. *)
Definition Load (query : string + list Row)
    : list Currency * list Currency * error :=
  match query with
  | inl e => ([], [], Some e)
  | inr rows => scanRows rows [] []
  end.

(** [persistence.New(dbConn)] as a [storage.Storage], on what the database
    answers to the refresh. *)
Definition New (query : string + list Row) : storage.Storage :=
  {| storage.Load := Load query |}.

End persistence.

(** ** Vocabulary of the further properties *)

(** The snapshot a successful refresh installs. *)
Definition snapshotOf (db : storage.Storage) (exchangeClient : service.Exchange)
    : cache.MCache :=
  {| cache.fiatToCrypto := service.FiatToCrypto (refreshAnswer db exchangeClient);
     cache.cryptoToFiat := service.CryptoToFiat (refreshAnswer db exchangeClient) |}.

(** The record is about the pair [(base, target)]. *)
Definition aboutPair (base target : string) (er : model.ExchangeRate) : Prop :=
  model.Symbol (model.Base er) = base ∧ model.Symbol (model.Target er) = target.

Global Instance aboutPair_dec base target er : Decision (aboutPair base target er).
Proof. unfold aboutPair. apply _. Defined.

(** The symbol has no [/] in it. *)
Fixpoint noSlash (s : string) : bool :=
  match s with
  | EmptyString => true
  | String c s' => negb (Ascii.eqb c "/") && noSlash s'
  end.

(** The cache without the base key [b] in either table. *)
Definition withoutBase (b : string) (m : cache.MCache) : cache.MCache :=
  {| cache.fiatToCrypto := delete b (cache.fiatToCrypto m);
     cache.cryptoToFiat := delete b (cache.cryptoToFiat m) |}.

(** Further concrete inputs. *)
Module examples2.
Import golang model.

(** The provider echoes the one pair asked with the rate 50000. *)
Definition echoBtcUsd : string → forex.HttpAnswer fetch.PricesResponse :=
  fun _ =>
    {| forex.limiterWait := None;
       forex.roundTrip := inr
         {| forex.StatusCode := 200;
            forex.Body := forex.DecodeOk
              {| fetch.Prices := {[ "BTC/USD" := 50000%float ]} |} |} |}.

(** The provider answers with a key that is no pair. *)
Definition noPair : string → forex.HttpAnswer fetch.PricesResponse :=
  fun _ =>
    {| forex.limiterWait := None;
       forex.roundTrip := inr
         {| forex.StatusCode := 200;
            forex.Body := forex.DecodeOk
              {| fetch.Prices := {[ "BTCUSD" := 50000%float ]} |} |} |}.

(** The provider answers [USD -> BTC = 0.5]. *)
Definition usdBtc : forex.Provider :=
  {| forex.fetchOne := fun _ _ =>
       {| forex.limiterWait := None;
          forex.roundTrip := inr
            {| forex.StatusCode := 200;
               forex.Body := forex.DecodeOk
                 {| forex.Base := "USD";
                    forex.Results := {[ "BTC" := 0.5%float ]};
                    forex.Updated := "2024-01-01 00:00:00";
                    forex.Ms := 3 |} |} |} |}.

(** The provider is rate limiting: [429]. *)
Definition tooMany : forex.Provider :=
  {| forex.fetchOne := fun _ _ =>
       {| forex.limiterWait := None;
          forex.roundTrip := inr
            {| forex.StatusCode := 429;
               forex.Body := forex.DecodeEOF |} |} |}.

(** The second permit is refused. *)
Definition secondRefused : nat → error :=
  fun k => if (k =? 1)%nat then Some "context deadline exceeded" else None.

(** The catalog rows: a fiat, a crypto, a row of another type. *)
Definition stock : Currency :=
  {| Name := "ACME"; Symbol := "ACME"; CurrencyType := "STOCK" |}.

Definition rows : list persistence.Row :=
  [persistence.Scanned examples.usd; persistence.Scanned examples.btc;
   persistence.Scanned stock].

(** A client that answers a refresh with the scenario tables. *)
Definition scenarioClient : service.Exchange :=
  {| service.GetAllRates := fun _ _ =>
       {| service.FiatToCrypto := cache.fiatToCrypto examples.scenario;
          service.CryptoToFiat := cache.cryptoToFiat examples.scenario;
          service.FiatLookupErr := None;
          service.CryptoLookupErr := None |} |}.

(** [USD] is a fiat base with a rate for [ETH] only, and the crypto pass
    delivered [BTC -> USD = 0.5]. *)
Definition fiatBaseOnly : cache.MCache :=
  {| cache.fiatToCrypto := {[ "USD" := {[ "ETH" := 0.25%float ]} ]};
     cache.cryptoToFiat := {[ "BTC" := {[ "USD" := 0.5%float ]} ]} |}.

(** A table whose base key is in lower case. *)
Definition lowerKey : cache.MCache :=
  {| cache.fiatToCrypto := ∅;
     cache.cryptoToFiat := {[ "btc" := {[ "USD" := 50000%float ]} ]} |}.

(** The map of a price answer and of fiat targets. *)
Definition btcUsdPrices : fetch.PricesResponse :=
  {| fetch.Prices := {[ "BTC/USD" := 50000%float ]} |}.

Definition ethTargets : gmap string string :=
  {[ "USD" := "ETH"; "EUR" := "ETH" ]}.

(** Thirty-one pairs, one more than the crypto semaphore has permits, and
    a semaphore that refuses the permit of the 31st round. *)
Definition thirtyOnePairs : list string :=
  (fun i => "C" +:+ pretty i +:+ "/USD") <$> seq 0 31.

Definition thirtyFirstRefused : nat → error :=
  fun k => if (k =? 30)%nat then Some "context deadline exceeded" else None.

(** Every permit is granted. *)
Definition granted : nat → error := fun _ => None.

(** The fiat pass merges [USD -> BTC = 0.5] before its deadline; the crypto
    pass is refused its first permit. *)
Definition cryptoRefused : fetch.Passes :=
  {| fetch.fiatPermits := granted;
     fetch.fiatEvents :=
       [forex.Recv (directF2C "USD" "BTC" 0.5%float) true; forex.CtxDone];
     fetch.fiatRange := map_to_list;
     fetch.cryptoPermits := fun _ => Some "context deadline exceeded";
     fetch.cryptoEvents := [] |}.

(** Both passes are granted their permits, merge nothing and meet their
    deadlines. *)
Definition quiet : fetch.Passes :=
  {| fetch.fiatPermits := granted;
     fetch.fiatEvents := [forex.CtxDone];
     fetch.fiatRange := map_to_list;
     fetch.cryptoPermits := granted;
     fetch.cryptoEvents := [forex.CtxDone] |}.

Definition emptyLookUp : service.LookUp :=
  {| service.FiatToCrypto := ∅; service.CryptoToFiat := ∅;
     service.FiatLookupErr := None; service.CryptoLookupErr := None |}.

End examples2.

(** ** Lookup: [cache.Get] *)
Section Lookup.
Import golang model.
Variable ToUpper : string -> string.
Implicit Types (m : cache.MCache) (from to : string) (r : float).

Lemma entry_Some (t : RateTable) base target r :
  entry t base target = Some r ↔
  ∃ rates, t !! base = Some rates ∧ rates !! target = Some r.
Proof. unfold entry. apply bind_Some. Qed.

Lemma entry_None (t : RateTable) base target :
  entry t base target = None ↔
  t !! base = None ∨ ∃ rates, t !! base = Some rates ∧ rates !! target = None.
Proof. unfold entry. apply bind_None. Qed.

(** The F2C half answers the direct fiat rate when it is there. *)
Lemma lookupF2C_direct m from to r :
  entry (cache.fiatToCrypto m) from to = Some r →
  cache.lookupF2C m from to = (directF2C from to r, None).
Proof.
  intros (rates & Hb & Ht)%entry_Some.
  unfold cache.lookupF2C. by rewrite Hb, Ht.
Qed.

(** The F2C half fails when neither the fiat table nor the reverse crypto
    entry has the pair. *)
Lemma lookupF2C_unknown m from to :
  entry (cache.fiatToCrypto m) from to = None →
  entry (cache.cryptoToFiat m) to from = None →
  cache.lookupF2C m from to
  = (zeroExchangeRate, cache.errInvalidConversion from to).
Proof.
  intros Hf Hc. unfold cache.lookupF2C.
  apply entry_None in Hf as [Hf | (rates & Hf & Hft)].
  - by rewrite Hf.
  - rewrite Hf, Hft.
    apply entry_None in Hc as [Hc | (rs & Hc & Hct)].
    + by rewrite Hc.
    + by rewrite Hc, Hct.
Qed.

(** The first [return] of [Get]. *)
Lemma Get_first_return m from to r :
  entry (cache.cryptoToFiat m) (ToUpper from) (ToUpper to) = Some r →
  cache.Get ToUpper m from to
  = (directC2F (ToUpper from) (ToUpper to) r, None).
Proof.
  intros (rates & Hb & Ht)%entry_Some.
  unfold cache.Get. by rewrite Hb, Ht.
Qed.

(** C5. When [cryptoToFiat] has an entry for the upper-cased pair, [Get]
    succeeds with exactly the stored rate, base tagged [Crypto] and target
    tagged [Fiat]. *)
Theorem Get_direct_cryptoToFiat m from to r :
  entry (cache.cryptoToFiat m) (ToUpper from) (ToUpper to) = Some r →
  cache.Get ToUpper m from to
  = ({| Base := {| Name := ""; Symbol := ToUpper from; CurrencyType := Crypto |};
        Target := {| Name := ""; Symbol := ToUpper to; CurrencyType := Fiat |};
        Rate := r |}, None).
Proof.
  intros (rates & Hb & Ht)%entry_Some.
  unfold cache.Get. by rewrite Hb, Ht.
Qed.

(** C1, as amended. When the upper-cased [from] is a base of [cryptoToFiat]
    without a rate for [to], and [fiatToCrypto[to][from] = r], [Get]
    succeeds with the reciprocal [1.0 / r], base tagged [Crypto] and target
    tagged [Fiat]. *)
Theorem Get_reciprocal_of_fiatToCrypto m from to rates r :
  cache.cryptoToFiat m !! ToUpper from = Some rates →
  rates !! ToUpper to = None →
  entry (cache.fiatToCrypto m) (ToUpper to) (ToUpper from) = Some r →
  cache.Get ToUpper m from to
  = ({| Base := {| Name := ""; Symbol := ToUpper from; CurrencyType := Crypto |};
        Target := {| Name := ""; Symbol := ToUpper to; CurrencyType := Fiat |};
        Rate := (1 / r)%float |}, None).
Proof.
  intros Hb Ht (fiatsRates & Hfb & Hft)%entry_Some.
  unfold cache.Get. by rewrite Hb, Ht, Hfb, Hft.
Qed.

(** C4, as amended. A direct [cryptoToFiat] entry is always the answer. A
    direct [fiatToCrypto] entry is the answer when no direct [cryptoToFiat]
    entry exists and the reciprocal step before it does not apply: [from]
    is not a base of [cryptoToFiat], or [fiatToCrypto[to][from]] is
    absent. *)
Theorem Get_direct_preferred m from to r :
  (entry (cache.cryptoToFiat m) (ToUpper from) (ToUpper to) = Some r →
   cache.Get ToUpper m from to
   = (directC2F (ToUpper from) (ToUpper to) r, None))
  ∧
  (entry (cache.cryptoToFiat m) (ToUpper from) (ToUpper to) = None →
   entry (cache.fiatToCrypto m) (ToUpper from) (ToUpper to) = Some r →
   cache.cryptoToFiat m !! ToUpper from = None
   ∨ entry (cache.fiatToCrypto m) (ToUpper to) (ToUpper from) = None →
   cache.Get ToUpper m from to
   = (directF2C (ToUpper from) (ToUpper to) r, None)).
Proof.
  split.
  - apply Get_first_return.
  - intros Hc Hf Hstep.
    pose proof (lookupF2C_direct m _ _ _ Hf) as HF.
    unfold cache.Get.
    destruct (cache.cryptoToFiat m !! ToUpper from) as [rates|] eqn:Hb;
      [|exact HF].
    apply entry_None in Hc as [Hc | (rs & Hc & Hct)]; [congruence|].
    rewrite Hb in Hc. injection Hc as <-. rewrite Hct.
    destruct Hstep as [? | Hrev]; [congruence|].
    apply entry_None in Hrev as [Hrev | (fr & Hrev & Hrt)].
    + by rewrite Hrev.
    + by rewrite Hrev, Hrt.
Qed.

(** C6. When the upper-cased pair has no direct entry and no entry to
    derive a reciprocal from, in either table, [Get] returns the zero
    [ExchangeRate] and the error whose message names both symbols. *)
Theorem Get_unknown_pair m from to :
  entry (cache.cryptoToFiat m) (ToUpper from) (ToUpper to) = None →
  entry (cache.fiatToCrypto m) (ToUpper to) (ToUpper from) = None →
  entry (cache.fiatToCrypto m) (ToUpper from) (ToUpper to) = None →
  entry (cache.cryptoToFiat m) (ToUpper to) (ToUpper from) = None →
  cache.Get ToUpper m from to
  = (zeroExchangeRate,
     Some ("invalid conversion for pair: "
             +:+ ToUpper from +:+ "/" +:+ ToUpper to)).
Proof.
  intros Hc Hrev Hf Hcrev.
  pose proof (lookupF2C_unknown m _ _ Hf Hcrev) as HF.
  unfold cache.Get.
  apply entry_None in Hc as [Hc | (rs & Hc & Hct)].
  - by rewrite Hc.
  - rewrite Hc, Hct.
    apply entry_None in Hrev as [Hrev | (fr & Hrev & Hrt)].
    + by rewrite Hrev.
    + by rewrite Hrev, Hrt.
Qed.

End Lookup.

(** *** [Get] on concrete tables *)

(** Witness of C5: [btc/usd] on the scenario tables is the stored 50000. *)
Lemma Get_direct_cryptoToFiat_witness :
  entry (cache.cryptoToFiat examples.scenario)
    (golang.ToUpperASCII "btc") (golang.ToUpperASCII "usd") = Some 50000%float
  ∧ cache.Get golang.ToUpperASCII examples.scenario "btc" "usd"
    = (directC2F "BTC" "USD" 50000%float, None).
Proof.
  split; [reflexivity|].
  apply (Get_direct_cryptoToFiat golang.ToUpperASCII examples.scenario
           "btc" "usd" 50000%float).
  reflexivity.
Defined.

(** C1 as stated fails: with [fiatToCrypto[USD][BTC] = 0.5] and no
    [cryptoToFiat] entry at all, [Get("BTC", "USD")] is the error, not the
    reciprocal 2. *)
Lemma Get_no_reciprocal_without_crypto_base :
  entry (cache.cryptoToFiat examples.fiatOnly) "BTC" "USD" = None
  ∧ entry (cache.fiatToCrypto examples.fiatOnly) "USD" "BTC" = Some 0.5%float
  ∧ cache.Get golang.ToUpperASCII examples.fiatOnly "BTC" "USD"
    = (model.zeroExchangeRate, Some "invalid conversion for pair: BTC/USD")
  ∧ cache.Get golang.ToUpperASCII examples.fiatOnly "BTC" "USD"
    ≠ (directC2F "BTC" "USD" (1 / 0.5)%float, None).
Proof.
  split; [reflexivity|]. split; [reflexivity|].
  split; [reflexivity|]. intros H. discriminate H.
Qed.

(** Witness of C1 as amended: [BTC] is a crypto base without a [USD] rate,
    and the reciprocal of [fiatToCrypto[USD][BTC] = 0.5] is 2. *)
Lemma Get_reciprocal_of_fiatToCrypto_witness :
  cache.cryptoToFiat examples.partialCrypto !! golang.ToUpperASCII "btc"
  = Some {[ "EUR" := 46000%float ]}
  ∧ cache.Get golang.ToUpperASCII examples.partialCrypto "btc" "usd"
    = (directC2F "BTC" "USD" 2%float, None).
Proof.
  split; [reflexivity|].
  apply (Get_reciprocal_of_fiatToCrypto golang.ToUpperASCII
           examples.partialCrypto "btc" "usd" {[ "EUR" := 46000%float ]}
           0.5%float); reflexivity.
Defined.

(** C4 as stated fails: [fiatToCrypto[XRP][BTC] = 2] is a direct entry, yet
    [Get("XRP", "BTC")] answers the reciprocal of [fiatToCrypto[BTC][XRP] = 4],
    tagged crypto to fiat, because [XRP] is also a base of [cryptoToFiat]. *)
Lemma Get_reciprocal_before_direct_fiat :
  entry (cache.fiatToCrypto examples.overlapping) "XRP" "BTC" = Some 2%float
  ∧ cache.Get golang.ToUpperASCII examples.overlapping "XRP" "BTC"
    = (directC2F "XRP" "BTC" 0.25%float, None)
  ∧ cache.Get golang.ToUpperASCII examples.overlapping "XRP" "BTC"
    ≠ (directF2C "XRP" "BTC" 2%float, None).
Proof.
  split; [reflexivity|]. split; [reflexivity|].
  intros H. discriminate H.
Qed.

(** Witness of C4 as amended: [usd/btc] on the scenario tables is the direct
    [fiatToCrypto] rate, [USD] not being a base of [cryptoToFiat]. *)
Lemma Get_direct_preferred_witness :
  entry (cache.fiatToCrypto examples.scenario)
    (golang.ToUpperASCII "usd") (golang.ToUpperASCII "btc") = Some 0.5%float
  ∧ cache.Get golang.ToUpperASCII examples.scenario "usd" "btc"
    = (directF2C "USD" "BTC" 0.5%float, None).
Proof.
  split; [reflexivity|].
  apply (proj2 (Get_direct_preferred golang.ToUpperASCII examples.scenario
                  "usd" "btc" 0.5%float));
    [reflexivity | reflexivity | left; reflexivity].
Defined.

(** Witness of C6: [BTC/JPY] is in neither scenario table, either way
    round. *)
Lemma Get_unknown_pair_witness :
  entry (cache.cryptoToFiat examples.scenario)
    (golang.ToUpperASCII "btc") (golang.ToUpperASCII "jpy") = None
  ∧ cache.Get golang.ToUpperASCII examples.scenario "btc" "jpy"
    = (model.zeroExchangeRate, Some "invalid conversion for pair: BTC/JPY").
Proof.
  split; [reflexivity|].
  apply (Get_unknown_pair golang.ToUpperASCII examples.scenario "btc" "jpy");
    reflexivity.
Defined.

(** ** Refresh: [cache.loadAndCache] *)
Section Refresh.
Import golang model service storage.
Implicit Types (db : Storage) (exchangeClient : Exchange) (m : cache.MCache).

Lemma loadAndCache_unfold db exchangeClient m :
  cache.loadAndCache db exchangeClient m
  = match (Load db).2 with
    | Some e => (m, Some e)
    | None =>
        let lookup := refreshAnswer db exchangeClient in
        match CryptoLookupErr lookup, FiatLookupErr lookup with
        | Some e, _ => (m, Some e)
        | None, Some e => (m, Some e)
        | None, None =>
            ({| cache.fiatToCrypto := FiatToCrypto lookup;
                cache.cryptoToFiat := CryptoToFiat lookup |}, None)
        end
    end.
Proof.
  unfold cache.loadAndCache, refreshAnswer.
  destruct (Load db) as [[fiats cryptos] [e|]]; simpl; [done|].
  destruct (CryptoLookupErr _); [done|].
  by destruct (FiatLookupErr _).
Qed.

Lemma loadAndCache_failed db exchangeClient m :
  refreshFails db exchangeClient →
  ∃ e, cache.loadAndCache db exchangeClient m = (m, Some e).
Proof.
  rewrite loadAndCache_unfold. unfold refreshFails. simpl.
  destruct (Load db).2 as [e|]; [eauto|].
  destruct (CryptoLookupErr _) as [e|]; [eauto|].
  destruct (FiatLookupErr _) as [e|]; [eauto|].
  intros [?|[?|?]]; done.
Qed.

Lemma loadAndCache_succeeded db exchangeClient m :
  ¬ refreshFails db exchangeClient →
  cache.loadAndCache db exchangeClient m
  = ({| cache.fiatToCrypto := FiatToCrypto (refreshAnswer db exchangeClient);
        cache.cryptoToFiat := CryptoToFiat (refreshAnswer db exchangeClient) |},
     None).
Proof.
  rewrite loadAndCache_unfold. unfold refreshFails. simpl.
  destruct (Load db).2 as [e|].
  { intros H; destruct H; by left. }
  destruct (CryptoLookupErr _) as [e|].
  { intros H; destruct H; right; by left. }
  destruct (FiatLookupErr _) as [e|]; [|done].
  intros H; destruct H; right; by right.
Qed.

(** C2. A refresh that fails, whether in the catalog load, the crypto pass
    or the fiat pass, returns an error and leaves the cache, so both
    tables, as it was; a refresh that succeeds returns no error and
    replaces both tables by the ones the client built. *)
Theorem loadAndCache_all_or_nothing db exchangeClient m :
  (refreshFails db exchangeClient →
   ∃ e, cache.loadAndCache db exchangeClient m = (m, Some e))
  ∧
  (¬ refreshFails db exchangeClient →
   cache.loadAndCache db exchangeClient m
   = ({| cache.fiatToCrypto := FiatToCrypto (refreshAnswer db exchangeClient);
         cache.cryptoToFiat := CryptoToFiat (refreshAnswer db exchangeClient) |},
      None)).
Proof.
  split; [apply loadAndCache_failed | apply loadAndCache_succeeded].
Qed.

(** A failed tick of the ticker loop changes nothing. *)
Lemma refreshLoop_failed_tick db exchangeClient ticks m :
  refreshFails db exchangeClient →
  cache.refreshLoop ((db, exchangeClient) :: ticks) m
  = cache.refreshLoop ticks m.
Proof.
  intros Hf. unfold cache.refreshLoop. simpl.
  destruct (loadAndCache_failed db exchangeClient m Hf) as [e ->]. done.
Qed.

(** The constructor fails with the error of the first refresh, on the empty
    cache. *)
Lemma New_first_refresh_failed db exchangeClient ticks :
  refreshFails db exchangeClient →
  ∃ e, cache.New db exchangeClient ticks
       = ({| cache.fiatToCrypto := ∅; cache.cryptoToFiat := ∅ |}, Some e).
Proof.
  intros Hf. unfold cache.New.
  destruct (loadAndCache_failed db exchangeClient
              {| cache.fiatToCrypto := ∅; cache.cryptoToFiat := ∅ |} Hf)
    as [e ->]. eauto.
Qed.

End Refresh.

(** Witness of C2: with the crypto pass failed, the scenario tables stay. *)
Lemma loadAndCache_all_or_nothing_witness :
  refreshFails examples.db examples.cryptoFailed
  ∧ ∃ e, cache.loadAndCache examples.db examples.cryptoFailed examples.scenario
         = (examples.scenario, Some e).
Proof.
  assert (H : refreshFails examples.db examples.cryptoFailed)
    by (right; left; discriminate).
  split; [exact H|].
  exact (proj1 (loadAndCache_all_or_nothing examples.db examples.cryptoFailed
                  examples.scenario) H).
Defined.

(** ** The provider client: [forex.GetRate] *)
Section ProviderClient.
Import golang.

(** C10. When the provider answers [200] with a body that decodes and whose
    results have no rate for [to], [GetRate] returns a nil error and a
    record with rate 0, base tagged [Fiat] and target tagged [Crypto]. *)
Theorem GetRate_missing_target (p : forex.Provider) (from to : string)
    (resp : forex.Response) :
  forex.limiterWait (forex.fetchOne p from to) = None →
  forex.roundTrip (forex.fetchOne p from to)
  = inr {| forex.StatusCode := forex.StatusOK;
           forex.Body := forex.DecodeOk resp |} →
  forex.Results resp !! to = None →
  forex.GetRate p from to
  = ({| model.Base := {| model.Name := ""; model.Symbol := forex.Base resp;
                         model.CurrencyType := model.Fiat |};
        model.Target := {| model.Name := ""; model.Symbol := to;
                           model.CurrencyType := model.Crypto |};
        model.Rate := 0%float |}, None).
Proof.
  intros Hwait Htrip Hmiss.
  unfold forex.GetRate, forex.Do. rewrite Hwait, Htrip. simpl.
  by rewrite Hmiss.
Qed.

(** An empty body ([io.EOF]) counts as success too: the rate is 0 and the
    base symbol is empty. *)
Lemma GetRate_empty_body (p : forex.Provider) (from to : string) :
  forex.limiterWait (forex.fetchOne p from to) = None →
  forex.roundTrip (forex.fetchOne p from to)
  = inr {| forex.StatusCode := forex.StatusOK;
           forex.Body := forex.DecodeEOF |} →
  forex.GetRate p from to = (directF2C "" to 0%float, None).
Proof.
  intros Hwait Htrip.
  unfold forex.GetRate, forex.Do. by rewrite Hwait, Htrip.
Qed.

End ProviderClient.

(** Witness of C10: asked for [USD -> BTC], the provider lists [ETH] only. *)
Lemma GetRate_missing_target_witness :
  forex.Results
    {| forex.Base := "USD"; forex.Results := {[ "ETH" := 0.25%float ]};
       forex.Updated := "2024-01-01 00:00:00"; forex.Ms := 3 |} !! "BTC" = None
  ∧ forex.GetRate examples.ethOnly "USD" "BTC"
    = (directF2C "USD" "BTC" 0%float, None).
Proof.
  split; [reflexivity|].
  apply (GetRate_missing_target examples.ethOnly "USD" "BTC"
           {| forex.Base := "USD"; forex.Results := {[ "ETH" := 0.25%float ]};
              forex.Updated := "2024-01-01 00:00:00"; forex.Ms := 3 |});
    reflexivity.
Defined.

(** ** The merge task: [forex.mergeResults] *)
Section Merge.
Import golang.
Implicit Types (storage : RateTable) (er : model.ExchangeRate)
  (events : list forex.SelectEvent) (ers : list model.ExchangeRate).

(** A merged record overwrites its own pair and nothing else. *)
Lemma entry_mergeOne storage er base target :
  entry (forex.mergeOne storage er) base target
  = if decide (base = model.Symbol (model.Base er)
               ∧ target = model.Symbol (model.Target er))
    then Some (model.Rate er)
    else entry storage base target.
Proof.
  unfold forex.mergeOne, entry.
  destruct (storage !! model.Symbol (model.Base er)) as [rates|] eqn:Hb.
  - destruct (decide (base = model.Symbol (model.Base er))) as [->|Hne].
    + rewrite lookup_insert_eq, Hb. simpl.
      destruct (decide (target = model.Symbol (model.Target er))) as [->|Hnt].
      * rewrite lookup_insert_eq. by rewrite decide_True.
      * rewrite lookup_insert_ne by done. rewrite decide_False; [done|].
        by intros [_ ?].
    + rewrite lookup_insert_ne by done. rewrite decide_False; [done|].
      by intros [? _].
  - destruct (decide (base = model.Symbol (model.Base er))) as [->|Hne].
    + rewrite lookup_insert_eq, Hb. simpl.
      destruct (decide (target = model.Symbol (model.Target er))) as [->|Hnt].
      * rewrite lookup_singleton_eq. by rewrite decide_True.
      * rewrite lookup_singleton_ne by done. rewrite decide_False; [done|].
        by intros [_ ?].
    + rewrite lookup_insert_ne by done. rewrite decide_False; [done|].
      by intros [? _].
Qed.


(** While the channel is open and the context is not done, the task merges
    what arrives, in order, and keeps running. *)
Lemma mergeResults_delivered ers events storage :
  forex.mergeResults (forex.delivered ers ++ events) storage
  = forex.mergeResults events (foldl forex.mergeOne storage ers).
Proof.
  revert storage. induction ers as [|er ers IH]; intros storage; [done|].
  simpl. apply IH.
Qed.

(** Receives on the closed channel do not end the loop. *)
Lemma mergeResults_closedReceives n events storage :
  forex.mergeResults (forex.closedReceives n ++ events) storage
  = forex.mergeResults events storage.
Proof. induction n as [|n IH]; [done|]. simpl. apply IH. Qed.

(** The task returns only on [ctx.Done()]. *)
Lemma mergeResults_returns_on_CtxDone events storage t :
  forex.mergeResults events storage = forex.Returned t →
  forex.CtxDone ∈ events.
Proof.
  revert storage. induction events as [|[|er isOpen] events IH];
    intros storage; simpl.
  - discriminate.
  - intros _. apply list_elem_of_here.
  - intros H. apply list_elem_of_further.
    destruct isOpen; simpl in H; eauto.
Qed.

(** C7, on the code. After every record has been merged and the channel
    is closed, the task is still in its loop however many receives on the
    closed channel it makes: the [break] leaves the [select] only. It
    returns when the context is done. *)
Theorem mergeResults_spins_on_closed_channel ers n storage :
  forex.mergeResults (forex.delivered ers ++ forex.closedReceives n) storage
  = forex.Running (foldl forex.mergeOne storage ers)
  ∧ forex.mergeResults
      (forex.delivered ers ++ forex.closedReceives n ++ [forex.CtxDone])
      storage
    = forex.Returned (foldl forex.mergeOne storage ers).
Proof.
  split.
  - rewrite mergeResults_delivered.
    rewrite <- (app_nil_r (forex.closedReceives n)).
    by rewrite mergeResults_closedReceives.
  - by rewrite mergeResults_delivered, mergeResults_closedReceives.
Qed.


(** Every stored rate was delivered or was there before. *)
Lemma mergeResults_entry events storage base target r :
  entry (forex.storageOf (forex.mergeResults events storage)) base target
  = Some r →
  entry storage base target = Some r
  ∨ ∃ er, forex.Recv er true ∈ events
          ∧ model.Symbol (model.Base er) = base
          ∧ model.Symbol (model.Target er) = target
          ∧ model.Rate er = r.
Proof.
  revert storage. induction events as [|[|er isOpen] events IH];
    intros storage; simpl; [by left|by left|].
  destruct isOpen; simpl; intros H; apply IH in H as [H|(er' & Hin & ?)].
  - rewrite entry_mergeOne in H. case_decide as Hd; [|by left].
    destruct Hd as [-> ->]. injection H as <-.
    right. exists er. split; [apply list_elem_of_here|done].
  - right. exists er'. split; [by apply list_elem_of_further|done].
  - by left.
  - right. exists er'. split; [by apply list_elem_of_further|done].
Qed.

End Merge.

(** ** Stored rates *)
Section StoredRates.
Import golang.


End StoredRates.



(** C7 fails on a run: two records, then a thousand receives on the closed
    channel, and the task has stored both rates but not returned. *)
Lemma mergeResults_still_running :
  forex.mergeResults
    (forex.delivered [examples.btcUsd; examples.btcEur]
       ++ forex.closedReceives 1000) ∅
  = forex.Running {[ "BTC" := {[ "USD" := 50000%float; "EUR" := 46000%float ]} ]}.
Proof. vm_compute. reflexivity. Qed.

(** ** The requests of a refresh: the nested loop of [forex.GetAllRates] *)
Section Requests.
Implicit Types (cryptos fiats : list model.Currency) (fiat : model.Currency)
  (st : gmap string string * list string).

(** The inner [for _, crypto := range cryptos], for one [fiat]. *)
Lemma inner_loop fiat cryptos st :
  foldl (fun (st : gmap string string * list string) crypto =>
           (<[model.Symbol fiat := model.Symbol crypto]> st.1,
            (st.2 ++ [model.Symbol crypto +:+ "/" +:+ model.Symbol fiat])%list))
    st cryptos
  = (match last cryptos with
     | Some crypto => <[model.Symbol fiat := model.Symbol crypto]> st.1
     | None => st.1
     end,
     (st.2 ++ map (fun crypto => pairString crypto fiat) cryptos)%list).
Proof.
  revert st. induction cryptos as [|c cs IH]; intros [targets combos].
  - simpl. by rewrite app_nil_r.
  - simpl foldl. rewrite IH. simpl. rewrite <- app_assoc. simpl.
    rewrite last_cons. destruct (last cs) as [c'|]; [|done].
    by rewrite insert_insert_eq.
Qed.

Lemma outer_loop_combos cryptos fiats st :
  (foldl (fun st fiat =>
      foldl (fun (st : gmap string string * list string) crypto =>
               (<[model.Symbol fiat := model.Symbol crypto]> st.1,
                (st.2 ++ [model.Symbol crypto +:+ "/" +:+ model.Symbol fiat])%list))
        st cryptos) st fiats).2
  = (st.2 ++ flat_map (fun fiat =>
               map (fun crypto => pairString crypto fiat) cryptos) fiats)%list.
Proof.
  revert st. induction fiats as [|f fs IH]; intros st.
  - simpl. by rewrite app_nil_r.
  - simpl foldl. rewrite IH, inner_loop. simpl. by rewrite <- app_assoc.
Qed.

Lemma outer_loop_targets cryptos fiats st crypto s :
  last cryptos = Some crypto →
  (foldl (fun st fiat =>
      foldl (fun (st : gmap string string * list string) crypto =>
               (<[model.Symbol fiat := model.Symbol crypto]> st.1,
                (st.2 ++ [model.Symbol crypto +:+ "/" +:+ model.Symbol fiat])%list))
        st cryptos) st fiats).1 !! s
  = if decide (s ∈ model.Symbol <$> fiats)
    then Some (model.Symbol crypto)
    else st.1 !! s.
Proof.
  intros Hlast. revert st. induction fiats as [|f fs IH]; intros st.
  - case_decide as Hin; [|done]. by apply elem_of_nil in Hin.
  - simpl foldl. rewrite IH, inner_loop, Hlast.
    rewrite fmap_cons. cbn [fst].
    destruct (decide (s ∈ model.Symbol <$> fs)) as [Hin|Hnin].
    + rewrite decide_True; [done|]. by apply list_elem_of_further.
    + destruct (decide (s = model.Symbol f)) as [->|Hne].
      * rewrite lookup_insert_eq, decide_True; [done|].
        apply list_elem_of_here.
      * rewrite lookup_insert_ne by done. rewrite decide_False; [done|].
        intros [?|?]%elem_of_cons; done.
Qed.

(** Pulling the heads out of a [flat_map] is a rearrangement. *)
Lemma flat_map_cons_Permutation {A B} (h : A → B) (k : A → list B)
    (l : list A) :
  flat_map (fun x => h x :: k x) l ≡ₚ (map h l ++ flat_map k l)%list.
Proof.
  induction l as [|x l IH]; [done|].
  simpl. constructor. rewrite IH. apply Permutation_app_swap_app.
Qed.

(** The fiat-major list of pair strings is the cross product, reordered. *)
Lemma combos_Permutation cryptos fiats :
  flat_map (fun fiat => map (fun crypto => pairString crypto fiat) cryptos)
    fiats
  ≡ₚ map (fun cf => pairString cf.1 cf.2) (list_prod cryptos fiats).
Proof.
  induction cryptos as [|c cs IH].
  - simpl. induction fiats as [|f fs IHf]; [done|]. simpl. exact IHf.
  - simpl. rewrite map_app, map_map. simpl.
    rewrite <- IH. apply flat_map_cons_Permutation.
Qed.

(** C8. [cryptoCombos] lists, fiat by fiat, the pair string of every
    crypto: one string for each element of [cryptos × fiats]; and
    [fiatTargets] maps every fiat symbol to the symbol of the last crypto
    of the list, and holds nothing else. *)
Theorem GetAllRates_requests cryptos fiats lastCrypto :
  last cryptos = Some lastCrypto →
  forex.cryptoCombos cryptos fiats
  = flat_map (fun fiat => map (fun crypto => pairString crypto fiat) cryptos)
      fiats
  ∧ forex.cryptoCombos cryptos fiats
    ≡ₚ map (fun cf => pairString cf.1 cf.2) (list_prod cryptos fiats)
  ∧ length (forex.cryptoCombos cryptos fiats)
    = length cryptos * length fiats
  ∧ (∀ fiat, fiat ∈ fiats →
       forex.fiatTargets cryptos fiats !! model.Symbol fiat
       = Some (model.Symbol lastCrypto))
  ∧ (∀ s, is_Some (forex.fiatTargets cryptos fiats !! s) →
       ∃ fiat, fiat ∈ fiats ∧ model.Symbol fiat = s).
Proof.
  intros Hlast.
  assert (Hcombos : forex.cryptoCombos cryptos fiats
    = flat_map (fun fiat => map (fun crypto => pairString crypto fiat) cryptos)
        fiats).
  { unfold forex.cryptoCombos, forex.buildCombos.
    by rewrite outer_loop_combos. }
  assert (Hperm := combos_Permutation cryptos fiats).
  rewrite <- Hcombos in Hperm.
  split; [exact Hcombos|]. split; [exact Hperm|]. split.
  { rewrite Hperm, length_map. apply length_prod. }
  assert (Htargets : ∀ s, forex.fiatTargets cryptos fiats !! s
    = if decide (s ∈ model.Symbol <$> fiats)
      then Some (model.Symbol lastCrypto) else None).
  { intros s. unfold forex.fiatTargets, forex.buildCombos.
    by rewrite (outer_loop_targets _ _ _ lastCrypto). }
  split.
  - intros fiat Hin. rewrite Htargets, decide_True; [done|].
    by apply list_elem_of_fmap_2.
  - intros s. rewrite Htargets. case_decide as Hin.
    + intros _. apply list_elem_of_fmap in Hin as (fiat & -> & Hin). eauto.
    + by intros [? ?].
Qed.

(** [GetAllRates] hands [fiatTargets] to the fiat pass and [cryptoCombos] to
    the crypto pass, and reports what each returned. *)
Lemma GetAllRates_passes fiatPass cryptoPass cryptos fiats lookup :
  forex.GetAllRates fiatPass cryptoPass cryptos fiats = Some lookup →
  fiatPass (forex.fiatTargets cryptos fiats)
  = Some (service.FiatToCrypto lookup, service.FiatLookupErr lookup)
  ∧ cryptoPass (forex.cryptoCombos cryptos fiats)
    = Some (service.CryptoToFiat lookup, service.CryptoLookupErr lookup).
Proof.
  unfold forex.GetAllRates.
  destruct (fiatPass _) as [[f2c ferr]|]; [|done].
  destruct (cryptoPass _) as [[c2f cerr]|]; [|done].
  by intros [= <-].
Qed.

End Requests.

(** Witness of C8: fiats [USD], [EUR] and cryptos [BTC], [ETH]; every fiat
    is mapped to [ETH]. *)
Lemma GetAllRates_requests_witness :
  last [examples.btc; examples.eth] = Some examples.eth
  ∧ forex.cryptoCombos [examples.btc; examples.eth] [examples.usd; examples.eur]
    = ["BTC/USD"; "ETH/USD"; "BTC/EUR"; "ETH/EUR"]
  ∧ forex.fiatTargets [examples.btc; examples.eth] [examples.usd; examples.eur]
    = {[ "USD" := "ETH"; "EUR" := "ETH" ]}.
Proof.
  split; [reflexivity|].
  pose proof (GetAllRates_requests [examples.btc; examples.eth]
                [examples.usd; examples.eur] examples.eth eq_refl)
    as (Hcombos & _).
  split; [rewrite Hcombos; reflexivity | vm_compute; reflexivity].
Defined.

(** ** Chunking: the launch loop of [forex.getCryptoRates] *)
Section Chunking.
Import golang.
Implicit Types (acquire : nat → error) (symbols : list string) (k n : nat).
Local Open Scope nat_scope.

(** With [batchSize = 1] the number of batches is the number of pairs. *)
Lemma batchNumOf_length symbols :
  Z.to_nat (forex.batchNumOf (Z.of_nat (length symbols))) = length symbols.
Proof.
  unfold forex.batchNumOf, forex.batchSize.
  rewrite Z.div_1_r. lia.
Qed.

(** The loop invariant: with as many pairs left as batches, and permits
    granted, each round launches the next singleton chunk. *)
Lemma launchLoop_granted acquire k n start (i : nat) :
  (∀ j, k ≤ j < k + n → acquire j = None) →
  forex.launchLoop acquire k n (Z.of_nat n) start (Z.of_nat i)
  = (singletonChunk <$> seq i n, None).
Proof.
  revert k start i. induction n as [|n IH]; intros k start i Hgrant; [done|].
  cbn [forex.launchLoop]. unfold forex.batchSize.
  rewrite (Hgrant k) by lia.
  assert (Hnext : (if (Z.of_nat (S n) >? 1)%Z
                   then (Z.of_nat i, Z.of_nat i + 1)%Z
                   else (Z.of_nat i, Z.of_nat i + Z.of_nat (S n))%Z)
                  = (Z.of_nat i, Z.of_nat (S i))).
  { destruct (Z.gtb_spec (Z.of_nat (S n)) 1); f_equal; lia. }
  rewrite Hnext.
  replace (Z.of_nat (S n) - 1)%Z with (Z.of_nat n) by lia.
  rewrite IH by (intros j Hj; apply Hgrant; lia).
  simpl. unfold singletonChunk. do 3 f_equal. lia.
Qed.

(** Whatever the semaphore answers, the workers launched are the first
    singleton chunks, in order. *)
Lemma launchLoop_prefix acquire k n start (i : nat) :
  ∃ j, j ≤ n ∧
    (forex.launchLoop acquire k n (Z.of_nat n) start (Z.of_nat i)).1
    = singletonChunk <$> seq i j.
Proof.
  revert k start i. induction n as [|n IH]; intros k start i.
  { exists 0. done. }
  cbn [forex.launchLoop]. unfold forex.batchSize.
  assert (Hnext : (if (Z.of_nat (S n) >? 1)%Z
                   then (Z.of_nat i, Z.of_nat i + 1)%Z
                   else (Z.of_nat i, Z.of_nat i + Z.of_nat (S n))%Z)
                  = (Z.of_nat i, Z.of_nat (S i))).
  { destruct (Z.gtb_spec (Z.of_nat (S n)) 1); f_equal; lia. }
  rewrite Hnext.
  destruct (acquire k) as [e|].
  { exists 0. split; [lia|done]. }
  replace (Z.of_nat (S n) - 1)%Z with (Z.of_nat n) by lia.
  destruct (IH (S k) (Z.of_nat i) (S i)) as (j & Hj & Heq).
  destruct (forex.launchLoop _ _ _ _ _ _) as [ws err]. simpl in *.
  exists (S j). split; [lia|]. simpl. rewrite Heq.
  unfold singletonChunk. do 2 f_equal. lia.
Qed.

(** The slice of a singleton chunk is the one pair at its index. *)
Lemma workerPairs_prefix symbols j :
  j ≤ length symbols →
  forex.workerPairs symbols (singletonChunk <$> seq 0 j)
  = (fun s => [s]) <$> take j symbols.
Proof.
  intros Hj. unfold forex.workerPairs. apply list_eq. intros i.
  change (map ?f ?l) with (f <$> l).
  rewrite !list_lookup_fmap.
  destruct (decide (i < j)) as [Hi|Hi].
  - rewrite lookup_seq_lt by done. rewrite lookup_take_lt by done.
    destruct (lookup_lt_is_Some_2 symbols i ltac:(lia)) as [s Hs].
    rewrite Hs. simpl. unfold slice, singletonChunk. simpl.
    replace (Z.to_nat (Z.of_nat i + 1 - Z.of_nat i)) with 1 by lia.
    rewrite Nat2Z.id. by rewrite (drop_S _ _ _ Hs).
  - rewrite (proj2 (lookup_ge_None (seq 0 j) i)) by (rewrite length_seq; lia).
    rewrite lookup_take_ge by lia. done.
Qed.

(** Whatever the run, its workers are the ones the loop launched. *)
Lemma getCryptoRates_launched acquire (events : list forex.SelectEvent)
    symbols :
  forex.launched (forex.getCryptoRates acquire events symbols)
  = (forex.launchLoop acquire 0 (length symbols)
       (Z.of_nat (length symbols)) 0 0).1.
Proof.
  unfold forex.getCryptoRates. rewrite batchNumOf_length.
  destruct (forex.launchLoop _ _ _ _ _ _) as [ws [e|]]; [done|].
  by destruct (forex.mergeResults events ∅).
Qed.

(** The next chunk of a round with at least one pair left. *)
Lemma next_chunk n (i : nat) :
  (if (Z.of_nat (S n) >? forex.batchSize)%Z
   then (Z.of_nat i, Z.of_nat i + forex.batchSize)%Z
   else (Z.of_nat i, Z.of_nat i + Z.of_nat (S n))%Z)
  = (Z.of_nat i, Z.of_nat (S i)).
Proof.
  unfold forex.batchSize.
  destruct (Z.gtb_spec (Z.of_nat (S n)) 1); f_equal; lia.
Qed.

(** The loop up to the first refused permit. *)
Lemma launchLoop_refused_at acquire k n d start (i : nat) e :
  d < n →
  (∀ j, k ≤ j < k + d → acquire j = None) →
  acquire (k + d) = Some e →
  forex.launchLoop acquire k n (Z.of_nat n) start (Z.of_nat i)
  = (singletonChunk <$> seq i d, Some e).
Proof.
  revert k n start i. induction d as [|d IH]; intros k n start i Hd Hgrant He.
  - destruct n as [|n]; [lia|].
    cbn [forex.launchLoop]. rewrite next_chunk.
    rewrite Nat.add_0_r in He. by rewrite He.
  - destruct n as [|n]; [lia|].
    cbn [forex.launchLoop]. rewrite next_chunk.
    rewrite (Hgrant k) by lia.
    replace (Z.of_nat (S n) - forex.batchSize)%Z with (Z.of_nat n)
      by (unfold forex.batchSize; lia).
    rewrite (IH (S k) n (Z.of_nat i) (S i)).
    + simpl. unfold singletonChunk. do 3 f_equal. lia.
    + lia.
    + intros j Hj. apply Hgrant. lia.
    + by replace (S k + d) with (k + S d) by lia.
Qed.

(** C9, as amended. On a list of [n] pairs the workers launched are
    singleton chunks [[0,1)], [[1,2)], ... in order, and the call of the
    [i]-th worker carries the [i]-th pair and nothing else. With every
    permit granted the loop launches exactly [n] of them, up to [[n-1,n)],
    and the chunks put together are the whole list. With the permit of
    round [k] the first one refused, it launches exactly the [k] workers of
    the first [k] pairs and the call returns the nil table with the permit
    error. *)
Theorem getCryptoRates_singleton_chunks acquire
    (events : list forex.SelectEvent) symbols :
  let run := forex.getCryptoRates acquire events symbols in
  let ws := forex.launched run in
  (∃ j, j ≤ length symbols
        ∧ ws = singletonChunk <$> seq 0 j
        ∧ forex.workerPairs symbols ws = (fun s => [s]) <$> take j symbols)
  ∧
  ((∀ k, k < length symbols → acquire k = None) →
   ws = singletonChunk <$> seq 0 (length symbols)
   ∧ length ws = length symbols
   ∧ forex.workerPairs symbols ws = (fun s => [s]) <$> symbols
   ∧ concat (forex.workerPairs symbols ws) = symbols)
  ∧
  (∀ k e,
     k < length symbols →
     (∀ j, j < k → acquire j = None) →
     acquire k = Some e →
     ws = singletonChunk <$> seq 0 k
     ∧ length ws = k
     ∧ forex.workerPairs symbols ws = (fun s => [s]) <$> take k symbols
     ∧ forex.returned run = Some (∅, Some e)).
Proof.
  intros run ws. subst ws run. split; [|split].
  - rewrite getCryptoRates_launched.
    destruct (launchLoop_prefix acquire 0 (length symbols) 0%Z 0)
      as (j & Hj & Heq).
    change (Z.of_nat 0) with 0%Z in Heq.
    exists j. rewrite Heq. by rewrite workerPairs_prefix.
  - intros Hgrant. rewrite getCryptoRates_launched.
    pose proof (launchLoop_granted acquire 0 (length symbols) 0%Z 0) as Hl.
    change (Z.of_nat 0) with 0%Z in Hl.
    rewrite Hl by (intros j Hj; apply Hgrant; lia).
    cbn [fst]. split; [done|]. split.
    { by rewrite length_fmap, length_seq. }
    rewrite workerPairs_prefix, firstn_all by done. split; [done|].
    clear. induction symbols as [|s symbols IH]; [done|].
    rewrite fmap_cons. cbn [concat app]. f_equal. exact IH.
  - intros k e Hk Hgrant He.
    pose proof (launchLoop_refused_at acquire 0 (length symbols) k 0%Z 0 e Hk)
      as Hl.
    change (Z.of_nat 0) with 0%Z in Hl.
    unfold forex.getCryptoRates. rewrite batchNumOf_length.
    rewrite Hl by (done || (intros j Hj; apply Hgrant; lia)).
    cbn [forex.launched forex.returned].
    split; [done|]. split.
    { by rewrite length_fmap, length_seq. }
    split; [|done]. apply workerPairs_prefix. lia.
Qed.

(** A refused permit ends the run with the error and the nil table. *)
Lemma getCryptoRates_refused acquire (events : list forex.SelectEvent)
    symbols e :
  symbols ≠ [] → acquire 0 = Some e →
  forex.getCryptoRates acquire events symbols
  = {| forex.launched := []; forex.returned := Some (∅, Some e) |}.
Proof.
  intros Hne Hacq. unfold forex.getCryptoRates.
  rewrite batchNumOf_length.
  destruct symbols as [|s symbols]; [done|].
  cbn [length forex.launchLoop]. rewrite Hacq.
  by destruct (Z.of_nat _ >? forex.batchSize)%Z.
Qed.

End Chunking.

(** Witness of C9: three pairs, every permit granted. *)
Lemma getCryptoRates_singleton_chunks_witness :
  forex.launched
    (forex.getCryptoRates (fun _ => None) [forex.CtxDone]
       ["BTC/USD"; "ETH/USD"; "BTC/EUR"])
  = [(0, 1); (1, 2); (2, 3)]%Z
  ∧ forex.workerPairs ["BTC/USD"; "ETH/USD"; "BTC/EUR"] [(0, 1); (1, 2); (2, 3)]%Z
    = [["BTC/USD"]; ["ETH/USD"]; ["BTC/EUR"]].
Proof.
  split; [|reflexivity].
  apply (proj1 (proj2 (getCryptoRates_singleton_chunks (fun _ => None)
                         [forex.CtxDone] ["BTC/USD"; "ETH/USD"; "BTC/EUR"]))).
  intros k _. reflexivity.
Defined.

(** C9 as stated fails: on 31 pairs with the permit of the 31st round
    refused (the 30 permits of the semaphore being held until the context
    of the round is done), the loop launches 30 workers, not 31, the last
    pair is in no chunk, and the call returns the permit error. *)
Lemma getCryptoRates_launches_fewer_on_refusal :
  length examples2.thirtyOnePairs = 31
  ∧ length (forex.launched
              (forex.getCryptoRates examples2.thirtyFirstRefused
                 [forex.CtxDone] examples2.thirtyOnePairs)) = 30
  ∧ concat (forex.workerPairs examples2.thirtyOnePairs
              (forex.launched
                 (forex.getCryptoRates examples2.thirtyFirstRefused
                    [forex.CtxDone] examples2.thirtyOnePairs)))
    ≠ examples2.thirtyOnePairs
  ∧ forex.returned
      (forex.getCryptoRates examples2.thirtyFirstRefused [forex.CtxDone]
         examples2.thirtyOnePairs)
    = Some (∅, Some "context deadline exceeded").
Proof.
  split; [reflexivity|]. split; [vm_compute; reflexivity|].
  split; [|vm_compute; reflexivity].
  intros H. apply (f_equal length) in H. vm_compute in H. discriminate H.
Qed.

(** ** More on the lookup *)
Section LookupCases.
Import golang model.
Variable ToUpper : string -> string.
Implicit Types (m : cache.MCache) (from to : string) (r : float).

Lemma is_Some_entry (t : RateTable) base target :
  is_Some (entry t base target) ↔
  ∃ rates r, t !! base = Some rates ∧ rates !! target = Some r.
Proof.
  unfold entry. split.
  - intros [r (rates & ? & ?)%bind_Some]. eauto.
  - intros (rates & r & Hb & Ht). exists r. rewrite Hb. exact Ht.
Qed.

Lemma lookupF2C_succeeds_iff m from to :
  (cache.lookupF2C m from to).2 = None ↔
  is_Some (entry (cache.fiatToCrypto m) from to)
  ∨ (is_Some (cache.fiatToCrypto m !! from)
     ∧ is_Some (entry (cache.cryptoToFiat m) to from)).
Proof.
  rewrite !is_Some_entry. unfold cache.lookupF2C, cache.errInvalidConversion.
  destruct (cache.fiatToCrypto m !! from) as [ratesMap|] eqn:Hf; simpl.
  2:{ split; [done|]. intros [(? & ? & ? & ?)|[[? ?] _]]; done. }
  destruct (ratesMap !! to) as [rate|] eqn:Hft; simpl.
  { split; [|done]. intros _. left. eauto. }
  destruct (cache.cryptoToFiat m !! to) as [rates|] eqn:Hc; simpl.
  2:{ split; [done|]. intros [(? & ? & ? & ?)|[_ (? & ? & ? & ?)]]; congruence. }
  destruct (rates !! from) as [rate|] eqn:Hcf; simpl.
  { split; [|done]. intros _. right. split; [done|]. eauto. }
  split; [done|]. intros [(? & ? & ? & ?)|[_ (? & ? & ? & ?)]]; congruence.
Qed.

(** X1. [Get] succeeds exactly when one of its four steps applies: a direct
    [cryptoToFiat] entry; [from] a base of [cryptoToFiat] and a reverse
    [fiatToCrypto] entry; a direct [fiatToCrypto] entry; [from] a base of
    [fiatToCrypto] and a reverse [cryptoToFiat] entry. *)
Theorem Get_succeeds_iff m from to :
  (cache.Get ToUpper m from to).2 = None ↔
  is_Some (entry (cache.cryptoToFiat m) (ToUpper from) (ToUpper to))
  ∨ (is_Some (cache.cryptoToFiat m !! ToUpper from)
     ∧ is_Some (entry (cache.fiatToCrypto m) (ToUpper to) (ToUpper from)))
  ∨ is_Some (entry (cache.fiatToCrypto m) (ToUpper from) (ToUpper to))
  ∨ (is_Some (cache.fiatToCrypto m !! ToUpper from)
     ∧ is_Some (entry (cache.cryptoToFiat m) (ToUpper to) (ToUpper from))).
Proof.
  pose proof (lookupF2C_succeeds_iff m (ToUpper from) (ToUpper to)) as HF.
  rewrite !is_Some_entry in HF. rewrite !is_Some_entry.
  unfold cache.Get.
  destruct (cache.cryptoToFiat m !! ToUpper from) as [ratesMap|] eqn:Hc.
  2:{ rewrite HF. split; [tauto|].
      intros [(? & ? & ? & ?)|[[[? ?] _]|H]]; [done|done|tauto]. }
  destruct (ratesMap !! ToUpper to) as [rate|] eqn:Hct.
  { split; [|done]. intros _. left. eauto. }
  destruct (cache.fiatToCrypto m !! ToUpper to) as [fiatsRates|] eqn:Hf.
  2:{ rewrite HF. split; [tauto|].
      intros [(? & ? & ? & ?)|[[_ (? & ? & ? & ?)]|H]]; [congruence|done|tauto]. }
  destruct (fiatsRates !! ToUpper from) as [rate|] eqn:Hff.
  { split; [|done]. intros _. right. left. split; [done|]. eauto. }
  rewrite HF. split; [tauto|].
  intros [(? & ? & ? & ?)|[[_ (? & ? & ? & ?)]|H]]; [congruence|congruence|tauto].
Qed.

(** X2. [Get] never makes up a rate. It answers the invalid-conversion error
    with the zero record, or a crypto-to-fiat record, or a fiat-to-crypto
    record on the upper-cased symbols; and the rate of a record is the
    stored entry of the pair or the reciprocal of the stored entry of the
    reverse pair in the other table. *)
Theorem Get_answer_cases m from to :
  cache.Get ToUpper m from to
  = (zeroExchangeRate, cache.errInvalidConversion (ToUpper from) (ToUpper to))
  ∨ (∃ r, cache.Get ToUpper m from to
          = (directC2F (ToUpper from) (ToUpper to) r, None)
          ∧ (entry (cache.cryptoToFiat m) (ToUpper from) (ToUpper to) = Some r
             ∨ ∃ r', entry (cache.fiatToCrypto m) (ToUpper to) (ToUpper from)
                     = Some r' ∧ r = (1 / r')%float))
  ∨ (∃ r, cache.Get ToUpper m from to
          = (directF2C (ToUpper from) (ToUpper to) r, None)
          ∧ (entry (cache.fiatToCrypto m) (ToUpper from) (ToUpper to) = Some r
             ∨ ∃ r', entry (cache.cryptoToFiat m) (ToUpper to) (ToUpper from)
                     = Some r' ∧ r = (1 / r')%float)).
Proof.
  assert (HF :
    cache.lookupF2C m (ToUpper from) (ToUpper to)
    = (zeroExchangeRate, cache.errInvalidConversion (ToUpper from) (ToUpper to))
    ∨ (∃ r, cache.lookupF2C m (ToUpper from) (ToUpper to)
            = (directF2C (ToUpper from) (ToUpper to) r, None)
          ∧ (entry (cache.fiatToCrypto m) (ToUpper from) (ToUpper to) = Some r
             ∨ ∃ r', entry (cache.cryptoToFiat m) (ToUpper to) (ToUpper from)
                     = Some r' ∧ r = (1 / r')%float))).
  { unfold cache.lookupF2C, entry.
    destruct (cache.fiatToCrypto m !! ToUpper from) as [ratesMap|]; simpl;
      [|by left].
    destruct (ratesMap !! ToUpper to) as [rate|]; simpl; [right; eauto|].
    destruct (cache.cryptoToFiat m !! ToUpper to) as [rates|]; simpl;
      [|by left].
    destruct (rates !! ToUpper from) as [rate|]; simpl; [|by left].
    right. eauto 6. }
  unfold cache.Get, entry.
  destruct (cache.cryptoToFiat m !! ToUpper from) as [ratesMap|]; simpl;
    [|tauto].
  destruct (ratesMap !! ToUpper to) as [rate|]; simpl.
  { right. left. eauto. }
  destruct (cache.fiatToCrypto m !! ToUpper to) as [fiatsRates|]; simpl;
    [|tauto].
  destruct (fiatsRates !! ToUpper from) as [rate|]; simpl; [|tauto].
  right. left. eauto 6.
Qed.
End LookupCases.

Section LookupMore.
Import golang model.
Variable ToUpper : string -> string.
Implicit Types (m : cache.MCache) (from to : string) (r : float).

(** X3. The fourth step. When the upper-cased [from] is a base of
    [fiatToCrypto] without a rate for [to], [cryptoToFiat[to][from] = r],
    and the crypto-base steps do not apply, [Get] answers the reciprocal
    [1.0 / r], base tagged [Fiat] and target tagged [Crypto]. *)
Theorem Get_reciprocal_of_cryptoToFiat m from to rates r :
  cache.fiatToCrypto m !! ToUpper from = Some rates →
  rates !! ToUpper to = None →
  entry (cache.cryptoToFiat m) (ToUpper to) (ToUpper from) = Some r →
  entry (cache.cryptoToFiat m) (ToUpper from) (ToUpper to) = None →
  cache.cryptoToFiat m !! ToUpper from = None
  ∨ entry (cache.fiatToCrypto m) (ToUpper to) (ToUpper from) = None →
  cache.Get ToUpper m from to
  = (directF2C (ToUpper from) (ToUpper to) (1 / r)%float, None).
Proof.
  intros Hf Hft (rs & Hc & Hcf)%entry_Some Hdirect Hstep.
  assert (HF : cache.lookupF2C m (ToUpper from) (ToUpper to)
               = (directF2C (ToUpper from) (ToUpper to) (1 / r)%float, None)).
  { unfold cache.lookupF2C. by rewrite Hf, Hft, Hc, Hcf. }
  unfold cache.Get.
  destruct (cache.cryptoToFiat m !! ToUpper from) as [ratesMap|] eqn:Hb;
    [|exact HF].
  apply entry_None in Hdirect as [Hd | (rm & Hd & Hdt)]; [congruence|].
  rewrite Hb in Hd. injection Hd as <-. rewrite Hdt.
  destruct Hstep as [? | Hrev]; [congruence|].
  apply entry_None in Hrev as [Hrev | (fr & Hrev & Hrt)].
  - by rewrite Hrev.
  - by rewrite Hrev, Hrt.
Qed.

(** X4. [Get] reads its arguments through the upper-casing only: with an
    idempotent upper-casing, asking for the upper-cased symbols is asking
    for the symbols. *)
Theorem Get_case_insensitive m from to :
  (∀ s, ToUpper (ToUpper s) = ToUpper s) →
  cache.Get ToUpper m (ToUpper from) (ToUpper to) = cache.Get ToUpper m from to.
Proof. intros Hidem. unfold cache.Get. by rewrite !Hidem. Qed.

(** X5. A base key that is not in upper case is never read: without it, in
    either table, every lookup answers the same. *)
Theorem Get_ignores_non_upper_base m from to b :
  (∀ s, ToUpper s ≠ b) →
  cache.Get ToUpper (withoutBase b m) from to = cache.Get ToUpper m from to.
Proof.
  intros Hb. unfold cache.Get, cache.lookupF2C, withoutBase. simpl.
  by rewrite !lookup_delete_ne by (by apply not_eq_sym).
Qed.

End LookupMore.

Lemma upperByte_idempotent c :
  golang.upperByte (golang.upperByte c) = golang.upperByte c.
Proof. destruct c as [[] [] [] [] [] [] [] []]; reflexivity. Qed.

Lemma ToUpperASCII_idempotent s :
  golang.ToUpperASCII (golang.ToUpperASCII s) = golang.ToUpperASCII s.
Proof.
  induction s as [|c s IH]; [done|].
  simpl. by rewrite upperByte_idempotent, IH.
Qed.

(** Upper-casing leaves no lower-case letter: the result never starts with
    one. *)
Lemma ToUpperASCII_not_lower s rest :
  golang.ToUpperASCII s ≠ String "b" rest.
Proof.
  destruct s as [|c s]; [done|]. simpl. intros [= Hc _].
  destruct c as [[] [] [] [] [] [] [] []]; discriminate Hc.
Qed.

(** Witness of X3: [usd/btc] where [USD] is a fiat base without a [BTC] rate
    and [cryptoToFiat[BTC][USD] = 0.5]: the answer is 2. *)
Lemma Get_reciprocal_of_cryptoToFiat_witness :
  cache.fiatToCrypto examples2.fiatBaseOnly !! golang.ToUpperASCII "usd"
  = Some {[ "ETH" := 0.25%float ]}
  ∧ cache.Get golang.ToUpperASCII examples2.fiatBaseOnly "usd" "btc"
    = (directF2C "USD" "BTC" 2%float, None).
Proof.
  split; [reflexivity|].
  apply (Get_reciprocal_of_cryptoToFiat golang.ToUpperASCII
           examples2.fiatBaseOnly "usd" "btc" {[ "ETH" := 0.25%float ]}
           0.5%float);
    [reflexivity | reflexivity | reflexivity | reflexivity | left; reflexivity].
Defined.

(** Witness of X4: [BTC/USD] and [btc/usd] on the scenario tables. *)
Lemma Get_case_insensitive_witness :
  cache.Get golang.ToUpperASCII examples.scenario "BTC" "USD"
  = cache.Get golang.ToUpperASCII examples.scenario "btc" "usd".
Proof.
  apply (Get_case_insensitive golang.ToUpperASCII examples.scenario "btc" "usd").
  exact ToUpperASCII_idempotent.
Defined.

(** Witness of X5: the base key [btc] is out of reach: the lookup answers as
    on the empty cache. *)
Lemma Get_ignores_non_upper_base_witness :
  cache.Get golang.ToUpperASCII
    {| cache.fiatToCrypto := ∅; cache.cryptoToFiat := ∅ |} "btc" "usd"
  = cache.Get golang.ToUpperASCII examples2.lowerKey "btc" "usd".
Proof.
  apply (Get_ignores_non_upper_base golang.ToUpperASCII examples2.lowerKey
           "btc" "usd" "btc").
  intros s. apply ToUpperASCII_not_lower.
Defined.

(** ** Snapshots: the ticker loop and [New] *)
Section Snapshots.
Import golang model service storage.
Implicit Types (db : Storage) (exchangeClient : Exchange) (m : cache.MCache)
  (ticks : list (Storage * Exchange)).

Lemma refreshFails_dec db exchangeClient :
  refreshFails db exchangeClient ∨ ¬ refreshFails db exchangeClient.
Proof.
  unfold refreshFails.
  destruct (Load db).2; [by left; left|].
  destruct (CryptoLookupErr _); [by left; right; left|].
  destruct (FiatLookupErr _); [by left; right; right|].
  right. intros [?|[?|?]]; done.
Qed.

Lemma loadAndCache_snapshot db exchangeClient m :
  ¬ refreshFails db exchangeClient →
  cache.loadAndCache db exchangeClient m
  = (snapshotOf db exchangeClient, None).
Proof. apply loadAndCache_succeeded. Qed.

Lemma refreshLoop_app ticks1 ticks2 m :
  cache.refreshLoop (ticks1 ++ ticks2) m
  = cache.refreshLoop ticks2 (cache.refreshLoop ticks1 m).
Proof. unfold cache.refreshLoop. apply foldl_app. Qed.

Lemma refreshLoop_succeeded_tick db exchangeClient ticks m :
  ¬ refreshFails db exchangeClient →
  cache.refreshLoop ((db, exchangeClient) :: ticks) m
  = cache.refreshLoop ticks (snapshotOf db exchangeClient).
Proof.
  intros Hs. unfold cache.refreshLoop. simpl.
  by rewrite (loadAndCache_snapshot db exchangeClient m Hs).
Qed.

Lemma refreshLoop_all_failed ticks m :
  (∀ db exchangeClient, (db, exchangeClient) ∈ ticks →
     refreshFails db exchangeClient) →
  cache.refreshLoop ticks m = m.
Proof.
  induction ticks as [|[db ex] ticks IH]; intros Hall; [done|].
  rewrite refreshLoop_failed_tick by (apply Hall, list_elem_of_here).
  apply IH. intros db' ex' Hin. by apply Hall, list_elem_of_further.
Qed.

(** The ticker loop never mixes refreshes: after any number of ticks the
    cache is the one it started from or, both tables together, the snapshot
    of one tick whose refresh succeeded. *)
Lemma refreshLoop_cases ticks m :
  cache.refreshLoop ticks m = m
  ∨ ∃ db exchangeClient,
      (db, exchangeClient) ∈ ticks
      ∧ ¬ refreshFails db exchangeClient
      ∧ cache.refreshLoop ticks m = snapshotOf db exchangeClient.
Proof.
  revert m. induction ticks as [|[db ex] ticks IH]; intros m; [by left|].
  destruct (refreshFails_dec db ex) as [Hf|Hs].
  - rewrite refreshLoop_failed_tick by done.
    destruct (IH m) as [->|(db' & ex' & Hin & Hs' & ->)]; [by left|].
    right. exists db', ex'. split; [by apply list_elem_of_further|done].
  - rewrite refreshLoop_succeeded_tick by done.
    destruct (IH (snapshotOf db ex)) as [->|(db' & ex' & Hin & Hs' & ->)].
    + right. exists db, ex. split; [apply list_elem_of_here|done].
    + right. exists db', ex'. split; [by apply list_elem_of_further|done].
Qed.

(** X6. The cache serves the last refresh that succeeded: the ticks before it
    and the failed ticks after it leave no trace. *)
Theorem refreshLoop_last_success before db exchangeClient after m :
  ¬ refreshFails db exchangeClient →
  (∀ db' exchangeClient', (db', exchangeClient') ∈ after →
     refreshFails db' exchangeClient') →
  cache.refreshLoop (before ++ (db, exchangeClient) :: after) m
  = snapshotOf db exchangeClient.
Proof.
  intros Hs Hafter.
  rewrite refreshLoop_app, refreshLoop_succeeded_tick by done.
  by apply refreshLoop_all_failed.
Qed.

(** X7. A cache that [New] returns without error has passed its first refresh
    and holds, both tables together, the snapshot of a refresh that
    succeeded: the first one or a later tick. *)
Theorem New_serves_a_snapshot db exchangeClient ticks c :
  cache.New db exchangeClient ticks = (c, None) →
  ¬ refreshFails db exchangeClient
  ∧ ∃ db' exchangeClient',
      (db', exchangeClient') ∈ (db, exchangeClient) :: ticks
      ∧ ¬ refreshFails db' exchangeClient'
      ∧ c = snapshotOf db' exchangeClient'.
Proof.
  intros Hnew.
  destruct (refreshFails_dec db exchangeClient) as [Hf|Hs].
  { destruct (New_first_refresh_failed db exchangeClient ticks Hf) as [e He].
    rewrite He in Hnew. discriminate Hnew. }
  split; [done|].
  unfold cache.New in Hnew.
  rewrite (loadAndCache_snapshot db exchangeClient _ Hs) in Hnew.
  injection Hnew as <-.
  destruct (refreshLoop_cases ticks (snapshotOf db exchangeClient))
    as [->|(db' & ex' & Hin & Hs' & ->)].
  - exists db, exchangeClient. split; [apply list_elem_of_here|done].
  - exists db', ex'. split; [by apply list_elem_of_further|done].
Qed.

End Snapshots.

(** Witness of X6: a failed tick, a tick that installs the scenario tables, a
    failed tick. *)
Lemma refreshLoop_last_success_witness :
  cache.refreshLoop
    ([(examples.db, examples.cryptoFailed)]
       ++ (examples.db, examples2.scenarioClient)
       :: [(examples.db, examples.cryptoFailed)])
    {| cache.fiatToCrypto := ∅; cache.cryptoToFiat := ∅ |}
  = examples.scenario.
Proof.
  apply (refreshLoop_last_success [(examples.db, examples.cryptoFailed)]
           examples.db examples2.scenarioClient
           [(examples.db, examples.cryptoFailed)]).
  - intros [H|[H|H]]; by apply H.
  - intros db' ex' [[= -> ->]|Hin]%elem_of_cons.
    + right; left. discriminate.
    + by apply elem_of_nil in Hin.
Defined.

(** Witness of X7: the first refresh installs the scenario tables and the tick
    after it fails. *)
Lemma New_serves_a_snapshot_witness :
  cache.New examples.db examples2.scenarioClient
    [(examples.db, examples.cryptoFailed)] = (examples.scenario, None)
  ∧ ¬ refreshFails examples.db examples2.scenarioClient.
Proof.
  assert (H : cache.New examples.db examples2.scenarioClient
                [(examples.db, examples.cryptoFailed)]
              = (examples.scenario, None)) by reflexivity.
  split; [exact H|].
  exact (proj1 (New_serves_a_snapshot examples.db examples2.scenarioClient
                  [(examples.db, examples.cryptoFailed)] examples.scenario H)).
Defined.

(** ** The catalog: [persistence.Load] *)
Section Catalog.
Import golang model.
Implicit Types (cs fiats cryptos : list Currency) (rows : list persistence.Row).
Local Open Scope list_scope.

(** The loop on rows that all scan: fiats and the rest, appended in row
    order. *)
Lemma scanRows_scanned cs fiats cryptos :
  persistence.scanRows (persistence.Scanned <$> cs) fiats cryptos
  = ((fiats ++ filter (fun c => CurrencyType c = Fiat) cs)%list,
     (cryptos ++ filter (fun c => CurrencyType c ≠ Fiat) cs)%list, None).
Proof.
  revert fiats cryptos. induction cs as [|c cs IH]; intros fiats cryptos.
  - simpl. by rewrite !app_nil_r.
  - rewrite fmap_cons. cbn [persistence.scanRows].
    destruct (String.eqb_spec (CurrencyType c) Fiat) as [Heq|Hne].
    + rewrite IH, filter_cons_True, filter_cons_False by (done || tauto).
      by rewrite <- app_assoc.
    + rewrite IH, filter_cons_False, filter_cons_True by done.
      by rewrite <- app_assoc.
Qed.

Lemma scanRows_app cs rows fiats cryptos :
  persistence.scanRows ((persistence.Scanned <$> cs) ++ rows) fiats cryptos
  = persistence.scanRows rows
      (fiats ++ filter (fun c => CurrencyType c = Fiat) cs)%list
      (cryptos ++ filter (fun c => CurrencyType c ≠ Fiat) cs)%list.
Proof.
  revert fiats cryptos. induction cs as [|c cs IH]; intros fiats cryptos.
  - simpl. by rewrite !app_nil_r.
  - rewrite fmap_cons. cbn [app persistence.scanRows].
    destruct (String.eqb_spec (CurrencyType c) Fiat) as [Heq|Hne].
    + rewrite IH, filter_cons_True, filter_cons_False by (done || tauto).
      by rewrite <- app_assoc.
    + rewrite IH, filter_cons_False, filter_cons_True by done.
      by rewrite <- app_assoc.
Qed.

(** X8. When every row scans, [Load] returns no error and splits the catalog in
    two, in row order: the fiats are the rows of type ["FIAT"], the cryptos
    are all the other rows, whatever their type; so every row is in exactly
    one of the two lists. *)
Theorem Load_partitions cs :
  persistence.Load (inr (persistence.Scanned <$> cs))
  = (filter (fun c => CurrencyType c = Fiat) cs,
     filter (fun c => CurrencyType c ≠ Fiat) cs, None)
  ∧ (filter (fun c => CurrencyType c = Fiat) cs
     ++ filter (fun c => CurrencyType c ≠ Fiat) cs)%list ≡ₚ cs.
Proof.
  split.
  - unfold persistence.Load. by rewrite scanRows_scanned.
  - apply filter_app_complement.
Qed.

(** X9. When a row fails to scan, [Load] returns the scan error together with
    the fiats and cryptos of the rows before it; the rows after it are not
    read. *)
Theorem Load_scan_error cs msg rows :
  persistence.Load
    (inr ((persistence.Scanned <$> cs) ++ persistence.ScanFailed msg :: rows))
  = (filter (fun c => CurrencyType c = Fiat) cs,
     filter (fun c => CurrencyType c ≠ Fiat) cs, Some msg).
Proof. unfold persistence.Load. by rewrite scanRows_app. Qed.

(** X10. A catalog error stops the refresh before the exchange client counts:
    when the query fails, or a row fails to scan after any number of rows
    that scanned, the cache stays as it was and the error is the catalog's,
    whatever the client answers. *)
Theorem loadAndCache_catalog_error (exchangeClient : service.Exchange)
    (m : cache.MCache) cs msg rows :
  cache.loadAndCache (persistence.New (inl msg)) exchangeClient m
  = (m, Some msg)
  ∧ cache.loadAndCache
      (persistence.New
         (inr ((persistence.Scanned <$> cs)
                 ++ persistence.ScanFailed msg :: rows)))
      exchangeClient m
    = (m, Some msg).
Proof.
  split; rewrite loadAndCache_unfold; unfold persistence.New; simpl; [done|].
  by rewrite scanRows_app.
Qed.

End Catalog.

(** ** The provider calls: [GetRate] and [GetCryptoRates] *)
Section ProviderCalls.
Import golang gostrings.
Local Open Scope list_scope.

(** X11. [GetRate] returns a nil error exactly when the limiter lets the call
    through, the round trip gives a response, its status is 200 and the
    body decodes or is empty; and with an error comes the zero record. *)
Theorem GetRate_succeeds_iff (p : forex.Provider) (from to : string) :
  ((forex.GetRate p from to).2 = None ↔
   forex.limiterWait (forex.fetchOne p from to) = None
   ∧ ∃ resp, forex.roundTrip (forex.fetchOne p from to) = inr resp
       ∧ forex.StatusCode resp = 200%Z
       ∧ (forex.Body resp = forex.DecodeEOF
          ∨ ∃ v, forex.Body resp = forex.DecodeOk v))
  ∧ ((forex.GetRate p from to).2 ≠ None →
     (forex.GetRate p from to).1 = model.zeroExchangeRate).
Proof.
  unfold forex.GetRate, forex.Do, forex.StatusOK.
  destruct (forex.limiterWait _) as [e|]; simpl.
  { split; [|done]. split; [done|]. by intros [? _]. }
  destruct (forex.roundTrip _) as [e|resp]; simpl.
  { split; [|done]. split; [done|]. by intros [_ (? & ? & _)]. }
  destruct (Z.eqb_spec (forex.StatusCode resp) 200) as [Hok|Hbad]; simpl.
  2:{ split; [|done]. split; [done|].
      intros [_ (resp' & [= <-] & ? & _)]. done. }
  destruct (forex.Body resp) as [v| |partial msg] eqn:Hbody; simpl.
  - split; [|done]. split; [|done]. intros _. split; [done|].
    exists resp. eauto.
  - split; [|done]. split; [|done]. intros _. split; [done|].
    exists resp. eauto.
  - split; [|done]. split; [done|].
    intros [_ (resp' & [= <-] & _ & [?|[? ?]])]; congruence.
Qed.

(** A key without the separator splits into itself. *)
Lemma Split_noSlash s : noSlash s = true → Split s "/" = [s].
Proof.
  induction s as [|c s IH]; [done|].
  simpl. intros [Hc Hs]%andb_prop.
  destruct (Ascii.eqb c "/"); [done|]. by rewrite IH.
Qed.

(** A key with the separator splits into two pieces at least. *)
Lemma Split_slash s :
  noSlash s = false → ∃ base target rest, Split s "/" = base :: target :: rest.
Proof.
  induction s as [|c s IH]; [done|].
  simpl. destruct (Ascii.eqb c "/"); simpl.
  - intros _. destruct s as [|c' s']; simpl; [eauto|].
    destruct (Ascii.eqb c' "/"); [eauto|].
    destruct (Split s' "/"); eauto.
  - intros Hs. destruct (IH Hs) as (base & target & rest & ->). eauto.
Qed.

(** The pair string of two symbols without separator splits into the two
    symbols. *)
Lemma Split_pair a b :
  noSlash a = true → noSlash b = true → Split (a +:+ "/" +:+ b) "/" = [a; b].
Proof.
  intros Ha Hb. induction a as [|c a IH].
  - simpl. by rewrite Split_noSlash.
  - simpl in *. apply andb_prop in Ha as [Hc Ha].
    destruct (Ascii.eqb c "/"); [done|]. by rewrite IH.
Qed.

Lemma rateOfPair_noSlash key rate :
  noSlash key = true → ∃ msg, fetch.rateOfPair key rate = Panic msg.
Proof. intros H. unfold fetch.rateOfPair. rewrite Split_noSlash by done. eauto. Qed.

Lemma rateOfPair_slash key rate :
  noSlash key = false →
  ∃ base target rest,
    Split key "/" = base :: target :: rest
    ∧ fetch.rateOfPair key rate = Done (directC2F base target rate).
Proof.
  intros H. destruct (Split_slash key H) as (base & target & rest & Hs).
  exists base, target, rest. split; [done|].
  unfold fetch.rateOfPair. by rewrite Hs.
Qed.

(** One entry without separator makes the whole loop panic, wherever the
    range puts it. *)
Lemma rangePrices_panics entries result key rate :
  (key, rate) ∈ entries → noSlash key = true →
  ∃ msg, fetch.rangePrices entries result = Panic msg.
Proof.
  revert result. induction entries as [|[k r] entries IH]; intros result Hin Hk.
  { by apply elem_of_nil in Hin. }
  simpl. apply elem_of_cons in Hin as [[= <- <-]|Hin].
  - destruct (rateOfPair_noSlash key rate Hk) as [msg ->]. eauto.
  - destruct (fetch.rateOfPair k r); eauto.
Qed.

(** With a separator in every key the loop appends one record per entry. *)
Lemma rangePrices_done entries result :
  (∀ key rate, (key, rate) ∈ entries → noSlash key = false) →
  ∃ records,
    fetch.rangePrices entries result = Done (result ++ records)
    ∧ Forall2 (fun entry er =>
                 ∃ base target rest,
                   Split entry.1 "/" = base :: target :: rest
                   ∧ er = directC2F base target entry.2)
        entries records.
Proof.
  revert result. induction entries as [|[k r] entries IH]; intros result Hall.
  { exists []. simpl. by rewrite app_nil_r. }
  simpl.
  destruct (rateOfPair_slash k r) as (base & target & rest & Hs & Her).
  { apply (Hall k r), list_elem_of_here. }
  rewrite Her.
  destruct (IH (result ++ [directC2F base target r])) as (records & -> & Hrec).
  { intros key rate Hin. apply (Hall key rate). by apply list_elem_of_further. }
  exists (directC2F base target r :: records). split.
  - by rewrite <- app_assoc.
  - constructor; [|done]. exists base, target, rest. done.
Qed.

Variable fetchPrices : string → forex.HttpAnswer fetch.PricesResponse.
Variable range : gmap string float → list (string * float).
Hypothesis range_order : rangeOrder range.

(** X12. [GetCryptoRates] panics on an answer that has a key without [/]: the
    second token of the split key is out of range. *)
Theorem GetCryptoRates_panics_without_separator (pairs : list string)
    (resp : fetch.PricesResponse) (key : string) (rate : float) :
  forex.limiterWait (fetchPrices (Join pairs ",")) = None →
  forex.roundTrip (fetchPrices (Join pairs ","))
  = inr {| forex.StatusCode := 200; forex.Body := forex.DecodeOk resp |} →
  fetch.Prices resp !! key = Some rate →
  noSlash key = true →
  ∃ msg, fetch.GetCryptoRates fetchPrices range pairs = Panic msg.
Proof.
  intros Hwait Htrip Hkey Hno.
  unfold fetch.GetCryptoRates, forex.Do. rewrite Hwait, Htrip. simpl.
  destruct (rangePrices_panics (range (fetch.Prices resp)) [] key rate)
    as [msg ->]; [|done|eauto].
  rewrite range_order. by apply elem_of_map_to_list.
Qed.

(** X13. On an answer whose keys all have a [/], [GetCryptoRates] returns one
    record per key, in range order: the first two pieces of the key are the
    symbols, tagged [Crypto] and [Fiat], and the rate is the key's. *)
Theorem GetCryptoRates_records (pairs : list string)
    (resp : fetch.PricesResponse) :
  forex.limiterWait (fetchPrices (Join pairs ",")) = None →
  forex.roundTrip (fetchPrices (Join pairs ","))
  = inr {| forex.StatusCode := 200; forex.Body := forex.DecodeOk resp |} →
  (∀ key, is_Some (fetch.Prices resp !! key) → noSlash key = false) →
  ∃ records,
    fetch.GetCryptoRates fetchPrices range pairs = Done (records, None)
    ∧ length records = size (fetch.Prices resp)
    ∧ Forall2 (fun entry er =>
                 ∃ base target rest,
                   Split entry.1 "/" = base :: target :: rest
                   ∧ er = directC2F base target entry.2)
        (range (fetch.Prices resp)) records.
Proof.
  intros Hwait Htrip Hall.
  unfold fetch.GetCryptoRates, forex.Do. rewrite Hwait, Htrip. simpl.
  destruct (rangePrices_done (range (fetch.Prices resp)) [])
    as (records & -> & Hrec).
  { intros key rate Hin. apply Hall. exists rate.
    apply elem_of_map_to_list. by rewrite <- range_order. }
  exists records. split; [done|]. split; [|done].
  rewrite <- (Forall2_length _ _ _ Hrec), range_order.
  apply length_map_to_list.
Qed.

(** X14. The round trip of a requested pair: asked for the pair string of a
    crypto and a fiat whose symbols have no [/], and answered with that
    string as the only key, [GetCryptoRates] returns the one record from
    the crypto's symbol to the fiat's symbol with the rate answered. *)
Theorem GetCryptoRates_echo (crypto fiat : model.Currency) (rate : float) :
  noSlash (model.Symbol crypto) = true →
  noSlash (model.Symbol fiat) = true →
  forex.limiterWait (fetchPrices (Join [pairString crypto fiat] ",")) = None →
  forex.roundTrip (fetchPrices (Join [pairString crypto fiat] ","))
  = inr {| forex.StatusCode := 200;
           forex.Body := forex.DecodeOk
             {| fetch.Prices := {[ pairString crypto fiat := rate ]} |} |} →
  fetch.GetCryptoRates fetchPrices range [pairString crypto fiat]
  = Done ([directC2F (model.Symbol crypto) (model.Symbol fiat) rate], None).
Proof.
  intros Hc Hf Hwait Htrip.
  unfold fetch.GetCryptoRates, forex.Do. rewrite Hwait, Htrip. simpl.
  pose proof (range_order {[ pairString crypto fiat := rate ]}) as Hr.
  rewrite map_to_list_singleton in Hr.
  apply Permutation_singleton_r in Hr. rewrite Hr. simpl.
  unfold fetch.rateOfPair, pairString. by rewrite Split_pair.
Qed.

End ProviderCalls.

(** ** More on the merge task *)
Section MergeMore.
Import golang.
Local Open Scope list_scope.
Implicit Types (storage : RateTable) (er : model.ExchangeRate)
  (events later : list forex.SelectEvent) (ers : list model.ExchangeRate).

Lemma entry_mergeOne_about storage er base target :
  entry (forex.mergeOne storage er) base target
  = if decide (aboutPair base target er) then Some (model.Rate er)
    else entry storage base target.
Proof.
  rewrite entry_mergeOne. unfold aboutPair.
  destruct (decide (base = model.Symbol (model.Base er)
                    ∧ target = model.Symbol (model.Target er))) as [[-> ->]|Hn].
  - by rewrite decide_True.
  - rewrite decide_False; [done|]. intros [<- <-]. by apply Hn.
Qed.

(** The table after a run of records: each pair has the rate of the last
    record about it, or what the table had. *)
Lemma entry_foldl_mergeOne ers storage base target :
  entry (foldl forex.mergeOne storage ers) base target
  = match last (filter (aboutPair base target) ers) with
    | Some er => Some (model.Rate er)
    | None => entry storage base target
    end.
Proof.
  induction ers as [|er ers IH] using rev_ind; [done|].
  rewrite foldl_snoc, entry_mergeOne_about, filter_app.
  destruct (decide (aboutPair base target er)) as [Hab|Hab].
  - rewrite (filter_cons_True _ _ _ Hab), filter_nil. by rewrite last_snoc.
  - rewrite (filter_cons_False _ _ _ Hab), filter_nil. by rewrite app_nil_r.
Qed.

(** Once the context is done the task returns at that [select]: what is
    observed later changes nothing. *)
Lemma mergeResults_CtxDone events later storage :
  forex.mergeResults (events ++ forex.CtxDone :: later) storage
  = forex.mergeResults (events ++ [forex.CtxDone]) storage.
Proof.
  revert storage. induction events as [|[|er isOpen] events IH];
    intros storage; simpl; [done|done|].
  destruct isOpen; simpl; apply IH.
Qed.

(** X15. Last writer wins. When the records [ers] are received and then the
    context is done, the task returns a table in which every pair has the
    rate of the last record of [ers] about it, and pairs no record is about
    keep the rate they had; nothing observed after the deadline counts. *)
Theorem mergeResults_last_writer_wins ers later storage base target :
  forex.mergeResults (forex.delivered ers ++ forex.CtxDone :: later) storage
  = forex.Returned (foldl forex.mergeOne storage ers)
  ∧ entry (foldl forex.mergeOne storage ers) base target
    = match last (filter (aboutPair base target) ers) with
      | Some er => Some (model.Rate er)
      | None => entry storage base target
      end.
Proof.
  split; [|apply entry_foldl_mergeOne].
  by rewrite mergeResults_delivered.
Qed.

(** X16. The merge deadline truncates: records that reach the channel after the
    context is done are dropped, whatever they are. *)
Theorem mergeResults_drops_after_deadline events later storage :
  forex.mergeResults (events ++ forex.CtxDone :: later) storage
  = forex.mergeResults (events ++ [forex.CtxDone]) storage
  ∧ ∃ t, forex.mergeResults (events ++ forex.CtxDone :: later) storage
         = forex.Returned t.
Proof.
  split; [apply mergeResults_CtxDone|].
  revert storage. induction events as [|[|er isOpen] events IH];
    intros storage; simpl; [eauto|eauto|].
  destruct isOpen; simpl; apply IH.
Qed.

(** X17. Merging never takes a pair out of the table: a pair that has a rate
    keeps having one, whatever is received. *)
Theorem mergeResults_keeps_pairs events storage base target :
  is_Some (entry storage base target) →
  is_Some (entry (forex.storageOf (forex.mergeResults events storage))
             base target).
Proof.
  revert storage. induction events as [|[|er isOpen] events IH];
    intros storage Hs; simpl; [done|done|].
  destruct isOpen; simpl; apply IH; [|done].
  rewrite entry_mergeOne_about. by case_decide.
Qed.

(** X18. Every rate of the table the task leaves was in the table before or is
    the rate of a record received on the open channel, about that pair: the
    task copies, it does not compute. *)
Theorem merged_rate_was_delivered events storage base target r :
  entry (forex.storageOf (forex.mergeResults events storage)) base target
  = Some r →
  entry storage base target = Some r
  ∨ ∃ er, forex.Recv er true ∈ events
          ∧ aboutPair base target er
          ∧ model.Rate er = r.
Proof.
  intros H. apply mergeResults_entry in H as [H|(er & Hin & Hb & Ht & Hr)].
  - by left.
  - right. exists er. by repeat split.
Qed.

End MergeMore.

(** Witness of X17: [BTC/USD] stays when [BTC/EUR] is merged. *)
Lemma mergeResults_keeps_pairs_witness :
  is_Some (entry
    (forex.storageOf
       (forex.mergeResults [forex.Recv examples.btcEur true; forex.CtxDone]
          {[ "BTC" := {[ "USD" := 50000%float ]} ]}))
    "BTC" "USD").
Proof.
  apply (mergeResults_keeps_pairs
           [forex.Recv examples.btcEur true; forex.CtxDone]
           {[ "BTC" := {[ "USD" := 50000%float ]} ]} "BTC" "USD").
  exists 50000%float. reflexivity.
Defined.

(** Witness of X18: the stored 50000 is the rate of the record received. *)
Lemma merged_rate_was_delivered_witness :
  entry (forex.storageOf
           (forex.mergeResults
              [forex.Recv examples.btcUsd true; forex.CtxDone] ∅))
    "BTC" "USD" = Some 50000%float
  ∧ (entry ∅ "BTC" "USD" = Some 50000%float
     ∨ ∃ er, forex.Recv er true
               ∈ [forex.Recv examples.btcUsd true; forex.CtxDone]
             ∧ aboutPair "BTC" "USD" er
             ∧ model.Rate er = 50000%float).
Proof.
  assert (H : entry (forex.storageOf
                (forex.mergeResults
                   [forex.Recv examples.btcUsd true; forex.CtxDone] ∅))
                "BTC" "USD" = Some 50000%float) by reflexivity.
  split; [exact H|].
  exact (merged_rate_was_delivered
           [forex.Recv examples.btcUsd true; forex.CtxDone]
           ∅ "BTC" "USD" 50000%float H).
Defined.

(** ** The two passes: [getCryptoRates] and [getFiatRates] *)
Section Passes.
Import golang gostrings.
Local Open Scope nat_scope.
Local Open Scope list_scope.
Implicit Types (acquire : nat → error) (symbols : list string) (k n : nat)
  (events : list forex.SelectEvent).

(** The loop ends without error only when every permit was granted. *)
Lemma launchLoop_no_error acquire k n start (i : nat) ws :
  forex.launchLoop acquire k n (Z.of_nat n) start (Z.of_nat i) = (ws, None) →
  ∀ j, k ≤ j < k + n → acquire j = None.
Proof.
  revert k start i ws. induction n as [|n IH]; intros k start i ws Hl j Hj;
    [lia|].
  cbn [forex.launchLoop] in Hl. rewrite next_chunk in Hl.
  destruct (acquire k) as [e|] eqn:Hk; [discriminate Hl|].
  replace (Z.of_nat (S n) - forex.batchSize)%Z with (Z.of_nat n) in Hl
    by (unfold forex.batchSize; lia).
  destruct (forex.launchLoop acquire (S k) n (Z.of_nat n) (Z.of_nat i)
              (Z.of_nat (S i))) as [ws' err] eqn:Hrec.
  injection Hl as _ ->.
  destruct (decide (j = k)) as [->|Hne]; [done|].
  apply (IH (S k) (Z.of_nat i) (S i) ws' Hrec). lia.
Qed.

(** The loop ends with an error only at a refused permit. *)
Lemma launchLoop_error acquire k n start (i : nat) ws e :
  forex.launchLoop acquire k n (Z.of_nat n) start (Z.of_nat i) = (ws, Some e) →
  ∃ d, d < n ∧ acquire (k + d) = Some e
       ∧ (∀ j, k ≤ j < k + d → acquire j = None)
       ∧ ws = singletonChunk <$> seq i d.
Proof.
  revert k start i ws. induction n as [|n IH]; intros k start i ws Hl;
    [discriminate Hl|].
  cbn [forex.launchLoop] in Hl. rewrite next_chunk in Hl.
  destruct (acquire k) as [e'|] eqn:Hk.
  { injection Hl as <- <-. exists 0. rewrite Nat.add_0_r.
    split; [lia|]. split; [done|]. split; [intros j Hj; lia|done]. }
  replace (Z.of_nat (S n) - forex.batchSize)%Z with (Z.of_nat n) in Hl
    by (unfold forex.batchSize; lia).
  destruct (forex.launchLoop acquire (S k) n (Z.of_nat n) (Z.of_nat i)
              (Z.of_nat (S i))) as [ws' err] eqn:Hrec.
  injection Hl as <- ->.
  destruct (IH (S k) (Z.of_nat i) (S i) ws' Hrec) as (d & Hd & He & Hg & ->).
  exists (S d). split; [lia|]. split.
  { by replace (k + S d) with (S k + d) by lia. }
  split.
  - intros j Hj. destruct (decide (j = k)) as [->|Hne]; [done|].
    apply Hg. lia.
  - simpl. unfold singletonChunk. do 2 f_equal. lia.
Qed.

Lemma getCryptoRates_unfold acquire events symbols :
  forex.getCryptoRates acquire events symbols
  = let '(ws, err) :=
      forex.launchLoop acquire 0 (length symbols)
        (Z.of_nat (length symbols)) 0 (Z.of_nat 0) in
    match err with
    | Some _ => {| forex.launched := ws; forex.returned := Some (∅, err) |}
    | None =>
        match forex.mergeResults events ∅ with
        | forex.Returned cryptoToFiat =>
            {| forex.launched := ws;
               forex.returned := Some (cryptoToFiat, None) |}
        | forex.Running _ => {| forex.launched := ws; forex.returned := None |}
        end
    end.
Proof. unfold forex.getCryptoRates. by rewrite batchNumOf_length. Qed.

(** X19. A refused permit aborts the crypto pass at once: with the first [k]
    permits granted and the next one refused, [getCryptoRates] has launched
    the workers of the first [k] pairs only and returns the nil table with
    the permit error, whatever the merge task has seen. *)
Theorem getCryptoRates_refused_at acquire events symbols k e :
  k < length symbols →
  (∀ j, j < k → acquire j = None) →
  acquire k = Some e →
  forex.getCryptoRates acquire events symbols
  = {| forex.launched := singletonChunk <$> seq 0 k;
       forex.returned := Some (∅, Some e) |}.
Proof.
  intros Hk Hgrant He. rewrite getCryptoRates_unfold.
  rewrite (launchLoop_refused_at acquire 0 (length symbols) k 0%Z 0 e);
    [done|done| |done].
  intros j Hj. apply Hgrant. lia.
Qed.

(** X20. The only error of the crypto pass is a refused permit, and it comes with
    the nil table: failed fetches never fail the pass. *)
Theorem getCryptoRates_error_is_permit_error acquire events symbols t e :
  forex.returned (forex.getCryptoRates acquire events symbols)
  = Some (t, Some e) →
  t = ∅ ∧ ∃ k, k < length symbols ∧ acquire k = Some e
               ∧ ∀ j, j < k → acquire j = None.
Proof.
  rewrite getCryptoRates_unfold.
  destruct (forex.launchLoop _ _ _ _ _ _) as [ws [e'|]] eqn:Hl; simpl.
  - intros [= <- <-]. split; [done|].
    destruct (launchLoop_error _ _ _ _ _ _ _ Hl) as (d & Hd & He & Hg & _).
    exists d. split; [done|]. split; [done|].
    intros j Hj. apply Hg. lia.
  - destruct (forex.mergeResults events ∅); simpl; discriminate.
Qed.

(** X21. A crypto pass that returns a table has been granted every permit, has
    launched a worker for every pair, and has waited until the merge
    context was done: closing the channel does not end it (see
    [mergeResults]). *)
Theorem getCryptoRates_returns_after_deadline acquire events symbols t :
  forex.returned (forex.getCryptoRates acquire events symbols)
  = Some (t, None) →
  forex.CtxDone ∈ events
  ∧ forex.mergeResults events ∅ = forex.Returned t
  ∧ forex.launched (forex.getCryptoRates acquire events symbols)
    = singletonChunk <$> seq 0 (length symbols).
Proof.
  rewrite getCryptoRates_launched.
  rewrite getCryptoRates_unfold.
  change (Z.of_nat 0) with 0%Z.
  destruct (forex.launchLoop _ _ _ _ _ _) as [ws [e'|]] eqn:Hl; simpl;
    [discriminate|].
  destruct (forex.mergeResults events ∅) as [t'|t'] eqn:Hm; simpl;
    [discriminate|].
  intros [= <-]. split; [|split; [done|]].
  - by eapply mergeResults_returns_on_CtxDone.
  - change 0%Z with (Z.of_nat 0) in Hl at 2.
    rewrite launchLoop_granted in Hl.
    + by injection Hl as <-.
    + intros j Hj. by eapply (launchLoop_no_error _ _ _ _ _ _ Hl).
Qed.

End Passes.

(** ** The fiat pass and the whole refresh *)
Section FiatPass.
Import golang gostrings.
Local Open Scope nat_scope.
Local Open Scope list_scope.
Implicit Types (acquire : nat → error) (k : nat)
  (events : list forex.SelectEvent) (entries : list (string * string))
  (cryptos fiats : list model.Currency).

Lemma fiatLaunchLoop_granted acquire k entries :
  (∀ j, k ≤ j < k + length entries → acquire j = None) →
  fetch.fiatLaunchLoop acquire k entries = (entries, None).
Proof.
  revert k. induction entries as [|[fs cs] entries IH]; intros k Hgrant;
    [done|].
  simpl. rewrite (Hgrant k) by (simpl; lia).
  rewrite IH; [done|]. intros j Hj. apply Hgrant. simpl. lia.
Qed.

Lemma fiatLaunchLoop_prefix acquire k entries :
  ∃ d, d ≤ length entries
       ∧ (fetch.fiatLaunchLoop acquire k entries).1 = take d entries.
Proof.
  revert k. induction entries as [|[fs cs] entries IH]; intros k.
  { exists 0. done. }
  simpl. destruct (acquire k) as [e|].
  { exists 0. split; [lia|done]. }
  destruct (IH (S k)) as (d & Hd & Heq).
  destruct (fetch.fiatLaunchLoop acquire (S k) entries) as [ws err].
  simpl in *. exists (S d). split; [lia|]. simpl. by rewrite Heq.
Qed.

Lemma getFiatRates_asked acquire events range (fiatTargets : gmap string string) :
  fetch.asked (fetch.getFiatRates acquire events range fiatTargets)
  = (fetch.fiatLaunchLoop acquire 0 (range fiatTargets)).1.
Proof.
  unfold fetch.getFiatRates.
  destruct (fetch.fiatLaunchLoop _ _ _) as [ws [e|]]; [done|].
  by destruct (forex.mergeResults events ∅).
Qed.

(** The fiat targets of a catalog with a last crypto: the fiat symbols, each
    mapped to that crypto's symbol. *)
Lemma fiatTargets_lookup cryptos fiats lastCrypto s :
  last cryptos = Some lastCrypto →
  forex.fiatTargets cryptos fiats !! s
  = if decide (s ∈ model.Symbol <$> fiats)
    then Some (model.Symbol lastCrypto) else None.
Proof.
  intros Hlast. unfold forex.fiatTargets, forex.buildCombos.
  by rewrite (outer_loop_targets _ _ _ lastCrypto).
Qed.

Variable range : gmap string string → list (string * string).
Hypothesis range_order : rangeOrder range.

(** X22. With every permit granted the fiat pass asks one rate per entry of
    [fiatTargets], each entry once; whatever the permits, it asks entries
    of [fiatTargets] only. *)
Theorem getFiatRates_asks_each_target acquire events
    (fiatTargets : gmap string string) :
  (∀ fs cs,
     (fs, cs) ∈ fetch.asked (fetch.getFiatRates acquire events range fiatTargets) →
     fiatTargets !! fs = Some cs)
  ∧ ((∀ j, j < size fiatTargets → acquire j = None) →
     fetch.asked (fetch.getFiatRates acquire events range fiatTargets)
     ≡ₚ map_to_list fiatTargets).
Proof.
  rewrite getFiatRates_asked. split.
  - intros fs cs Hin.
    destruct (fiatLaunchLoop_prefix acquire 0 (range fiatTargets))
      as (d & _ & Heq).
    rewrite Heq in Hin. apply subseteq_take in Hin.
    rewrite range_order in Hin. by apply elem_of_map_to_list.
  - intros Hgrant. rewrite fiatLaunchLoop_granted; [apply range_order|].
    intros j Hj. apply Hgrant.
    rewrite <- length_map_to_list, <- (range_order fiatTargets). lia.
Qed.

(** X23. The coverage of the fiat pass of a refresh. With every permit granted,
    the rates asked are exactly: for each fiat symbol of the catalog, the
    rate to the symbol of the last crypto of the catalog; no other crypto is
    ever a target, and no fiat symbol is asked twice. *)
Theorem fiat_pass_asks_last_crypto_only acquire events cryptos fiats lastCrypto :
  last cryptos = Some lastCrypto →
  (∀ j, j < length fiats → acquire j = None) →
  let asked := fetch.asked (fetch.getFiatRates acquire events range
                              (forex.fiatTargets cryptos fiats)) in
  (∀ fs cs, (fs, cs) ∈ asked ↔
     cs = model.Symbol lastCrypto ∧ ∃ fiat, fiat ∈ fiats ∧ model.Symbol fiat = fs)
  ∧ NoDup asked.*1.
Proof.
  intros Hlast Hgrant asked. subst asked.
  assert (Hsize : size (forex.fiatTargets cryptos fiats) ≤ length fiats).
  { clear -Hlast.
    rewrite <- length_map_to_list, <- (length_fmap fst).
    rewrite <- (length_fmap model.Symbol fiats).
    apply submseteq_length, NoDup_submseteq; [apply NoDup_fst_map_to_list|].
    intros s [[s' cs] [-> Hin]]%list_elem_of_fmap. simpl.
    apply elem_of_map_to_list in Hin.
    rewrite (fiatTargets_lookup _ _ lastCrypto) in Hin by done.
    by case_decide. }
  rewrite getFiatRates_asked, fiatLaunchLoop_granted
    by (intros j Hj; apply Hgrant; rewrite <- (length_map_to_list
          (forex.fiatTargets cryptos fiats)), <- (range_order _) in Hsize; lia).
  split.
  - intros fs cs. cbn [fst]. rewrite range_order, elem_of_map_to_list.
    rewrite (fiatTargets_lookup _ _ lastCrypto) by done.
    case_decide as Hin.
    + apply list_elem_of_fmap in Hin as (fiat & -> & Hin).
      split; [intros [= <-]; eauto|]. by intros [-> _].
    + split; [done|]. intros [_ (fiat & Hf & <-)].
      destruct Hin. by apply list_elem_of_fmap_2.
  - cbn [fst]. rewrite range_order. apply NoDup_fst_map_to_list.
Qed.

End FiatPass.

(** ** From the provider to the lookup *)
Section EndToEnd.
Import golang gostrings.
Local Open Scope nat_scope.
Local Open Scope list_scope.
Variable ToUpper : string → string.

(** X24. A fetched fiat rate is served. The record [GetRate] builds from an
    answer with base [b] and a rate [r] for the target asked, once merged
    into the fiat table, is what [Get] answers for [(b, target)], as a
    fiat-to-crypto rate, when both are in upper case and [b] is no base of
    the crypto table. *)
Theorem fetched_fiat_rate_is_served (p : forex.Provider) (fs cs : string)
    (resp : forex.Response) (r : float) (storage cryptoToFiat : RateTable)
    (from to : string) :
  forex.limiterWait (forex.fetchOne p fs cs) = None →
  forex.roundTrip (forex.fetchOne p fs cs)
  = inr {| forex.StatusCode := 200; forex.Body := forex.DecodeOk resp |} →
  forex.Results resp !! cs = Some r →
  ToUpper from = forex.Base resp →
  ToUpper to = cs →
  cryptoToFiat !! forex.Base resp = None →
  cache.Get ToUpper
    {| cache.fiatToCrypto :=
         forex.storageOf
           (forex.mergeResults
              [forex.Recv (forex.GetRate p fs cs).1 true; forex.CtxDone]
              storage);
       cache.cryptoToFiat := cryptoToFiat |} from to
  = (directF2C (forex.Base resp) cs r, None).
Proof.
  intros Hwait Htrip Hr Hfrom Hto Hc.
  assert (Her : (forex.GetRate p fs cs).1 = directF2C (forex.Base resp) cs r).
  { unfold forex.GetRate, forex.Do. rewrite Hwait, Htrip. simpl.
    by rewrite Hr. }
  rewrite Her. simpl.
  unfold cache.Get. simpl. rewrite Hfrom, Hto, Hc.
  apply lookupF2C_direct. simpl.
  rewrite entry_mergeOne. simpl. by rewrite decide_True.
Qed.

(** Once the context is done the merge task returns. *)
Lemma mergeResults_returns_when_done (events : list forex.SelectEvent)
    (storage : RateTable) :
  forex.CtxDone ∈ events →
  ∃ t, forex.mergeResults events storage = forex.Returned t.
Proof.
  revert storage. induction events as [|[|er isOpen] events IH];
    intros storage Hin.
  - by apply elem_of_nil in Hin.
  - simpl. eauto.
  - apply elem_of_cons in Hin as [Hin|Hin]; [discriminate Hin|].
    simpl. destruct isOpen; simpl; by apply IH.
Qed.

(** The fiat pass returns once its merge context is done, with or without a
    permit error. *)
Lemma getFiatRates_returns acquire (events : list forex.SelectEvent)
    (range : gmap string string → list (string * string))
    (fiatTargets : gmap string string) :
  forex.CtxDone ∈ events →
  is_Some (fetch.returned (fetch.getFiatRates acquire events range fiatTargets)).
Proof.
  intros Hin. unfold fetch.getFiatRates.
  destruct (fetch.fiatLaunchLoop _ _ _) as [ws [e|]]; [by eexists|].
  destruct (mergeResults_returns_when_done events ∅ Hin) as [t ->].
  by eexists.
Qed.

(** X25. A refused permit keeps the snapshot. When the semaphore of the crypto
    pass refuses a permit and the merge context of the fiat pass gets done,
    [GetAllRates] returns: it reports the permit error as the crypto error,
    with the nil crypto table, and the refresh built on that answer leaves
    the cache as it was and returns that error, whatever the fiat pass
    delivered. *)
Theorem refused_permit_keeps_snapshot (w : fetch.Passes)
    (fiats cryptos : list model.Currency) (k : nat) (e : string) :
  k < length (forex.cryptoCombos cryptos fiats) →
  (∀ j, j < k → fetch.cryptoPermits w j = None) →
  fetch.cryptoPermits w k = Some e →
  forex.CtxDone ∈ fetch.fiatEvents w →
  ∃ lookup,
    fetch.GetAllRates w cryptos fiats = Some lookup
    ∧ service.CryptoLookupErr lookup = Some e
    ∧ service.CryptoToFiat lookup = ∅
    ∧ ∀ (db : storage.Storage) (exchangeClient : service.Exchange)
        (m : cache.MCache),
        storage.Load db = (fiats, cryptos, None) →
        service.GetAllRates exchangeClient cryptos fiats = lookup →
        cache.loadAndCache db exchangeClient m = (m, Some e).
Proof.
  intros Hk Hgrant He Hdone.
  destruct (getFiatRates_returns (fetch.fiatPermits w) (fetch.fiatEvents w)
              (fetch.fiatRange w) (forex.fiatTargets cryptos fiats) Hdone)
    as [[f2c ferr] Hfiat].
  exists {| service.FiatToCrypto := f2c; service.CryptoToFiat := ∅;
            service.FiatLookupErr := ferr;
            service.CryptoLookupErr := Some e |}.
  split.
  { unfold fetch.GetAllRates, forex.GetAllRates. rewrite Hfiat.
    rewrite getCryptoRates_unfold.
    rewrite (launchLoop_refused_at _ 0 _ k 0%Z 0 e);
      [done|done|intros j Hj; apply Hgrant; lia|done]. }
  split; [done|]. split; [done|].
  intros db exchangeClient m Hload Hex.
  rewrite loadAndCache_unfold. unfold refreshAnswer.
  rewrite Hload. simpl. by rewrite Hex.
Qed.

(** X26. A refresh that succeeds has waited for both merge deadlines: when
    [GetAllRates] returns without error, the merge context of the crypto
    pass and the one of the fiat pass were both done. *)
Theorem GetAllRates_waits_for_both_deadlines (w : fetch.Passes)
    (cryptos fiats : list model.Currency) (lookup : service.LookUp) :
  fetch.GetAllRates w cryptos fiats = Some lookup →
  service.CryptoLookupErr lookup = None →
  service.FiatLookupErr lookup = None →
  forex.CtxDone ∈ fetch.cryptoEvents w ∧ forex.CtxDone ∈ fetch.fiatEvents w.
Proof.
  unfold fetch.GetAllRates, forex.GetAllRates.
  unfold fetch.getFiatRates, forex.getCryptoRates.
  destruct (fetch.fiatLaunchLoop _ _ _) as [fws [fe|]]; simpl.
  { destruct (forex.launchLoop _ _ _ _ _ _) as [cws [ce|]]; simpl.
    - intros [= <-]. done.
    - destruct (forex.mergeResults (fetch.cryptoEvents w) ∅); simpl;
        [done|]. intros [= <-]. done. }
  destruct (forex.mergeResults (fetch.fiatEvents w) ∅) as [ft|ft] eqn:Hf;
    simpl; [done|].
  destruct (forex.launchLoop _ _ _ _ _ _) as [cws [ce|]]; simpl.
  { intros [= <-]. done. }
  destruct (forex.mergeResults (fetch.cryptoEvents w) ∅) as [ct|ct] eqn:Hc;
    simpl; [done|].
  intros _ _ _. split; by eapply mergeResults_returns_on_CtxDone.
Qed.

(** X27. An empty side of the catalog empties the refresh: without a crypto, or
    without a fiat, no pair is asked of the crypto pass and no target of the
    fiat pass. *)
Theorem requests_of_empty_catalog (cryptos fiats : list model.Currency) :
  cryptos = [] ∨ fiats = [] →
  forex.cryptoCombos cryptos fiats = []
  ∧ forex.fiatTargets cryptos fiats = ∅.
Proof.
  intros [-> | ->]; [|done].
  unfold forex.cryptoCombos, forex.fiatTargets, forex.buildCombos.
  induction fiats as [|fiat fiats IH]; [done|]. exact IH.
Qed.

End EndToEnd.

(** *** The further properties on concrete inputs *)

(** The order [map_to_list] takes is one a range may take. *)
Lemma rangeOrder_map_to_list {V} : gostrings.rangeOrder (@map_to_list _ V _ _).
Proof. intros m. reflexivity. Qed.

(** Witness of X11: on a 429 the error carries the code and the record is the
    zero record. *)
Lemma GetRate_succeeds_iff_witness :
  (forex.GetRate examples2.tooMany "USD" "BTC").2
  = Some "unable to fetch rate due to code: 429"
  ∧ (forex.GetRate examples2.tooMany "USD" "BTC").1 = model.zeroExchangeRate.
Proof.
  split; [reflexivity|].
  apply (proj2 (GetRate_succeeds_iff examples2.tooMany "USD" "BTC")).
  intros H. vm_compute in H. discriminate H.
Defined.

(** Witness of X12: the answer has the key [BTCUSD]. *)
Lemma GetCryptoRates_panics_without_separator_witness :
  noSlash "BTCUSD" = true
  ∧ ∃ msg, fetch.GetCryptoRates examples2.noPair map_to_list ["BTC/USD"]
           = gostrings.Panic msg.
Proof.
  split; [reflexivity|].
  apply (GetCryptoRates_panics_without_separator examples2.noPair map_to_list
           rangeOrder_map_to_list ["BTC/USD"]
           {| fetch.Prices := {[ "BTCUSD" := 50000%float ]} |}
           "BTCUSD" 50000%float); reflexivity.
Defined.

(** Witness of X13: one key, one record. *)
Lemma GetCryptoRates_records_witness :
  ∃ records,
    fetch.GetCryptoRates examples2.echoBtcUsd map_to_list ["BTC/USD"]
    = gostrings.Done (records, None)
    ∧ length records = 1.
Proof.
  destruct (GetCryptoRates_records examples2.echoBtcUsd map_to_list
              rangeOrder_map_to_list ["BTC/USD"] examples2.btcUsdPrices)
    as (records & Hrun & Hlen & _).
  - reflexivity.
  - reflexivity.
  - intros key [rate Hkey].
    change (({[ "BTC/USD" := 50000%float ]} : gmap string float) !! key
            = Some rate) in Hkey.
    apply lookup_singleton_Some in Hkey as [<- _]. reflexivity.
  - exists records. split; [exact Hrun | exact Hlen].
Defined.

(** Witness of X14: [BTC/USD] asked and echoed with 50000. *)
Lemma GetCryptoRates_echo_witness :
  noSlash "BTC" = true
  ∧ fetch.GetCryptoRates examples2.echoBtcUsd map_to_list ["BTC/USD"]
    = gostrings.Done ([examples.btcUsd], None).
Proof.
  split; [reflexivity|].
  apply (GetCryptoRates_echo examples2.echoBtcUsd map_to_list
           rangeOrder_map_to_list examples.btc examples.usd 50000%float);
    reflexivity.
Defined.

(** Witness of X19: three pairs, the second permit refused: one worker, the
    nil table and the error. *)
Lemma getCryptoRates_refused_at_witness :
  forex.getCryptoRates examples2.secondRefused []
    ["BTC/USD"; "ETH/USD"; "BTC/EUR"]
  = {| forex.launched := [(0, 1)%Z];
       forex.returned := Some (∅, Some "context deadline exceeded") |}.
Proof.
  apply (getCryptoRates_refused_at examples2.secondRefused []
           ["BTC/USD"; "ETH/USD"; "BTC/EUR"] 1 "context deadline exceeded").
  - simpl. lia.
  - intros j Hj. destruct j; [reflexivity|lia].
  - reflexivity.
Defined.

(** Witness of X20: the error returned is the one of the refused permit. *)
Lemma getCryptoRates_error_is_permit_error_witness :
  forex.returned
    (forex.getCryptoRates examples2.secondRefused [forex.CtxDone]
       ["BTC/USD"; "ETH/USD"; "BTC/EUR"])
  = Some (∅, Some "context deadline exceeded")
  ∧ ∃ k, (k < 3)%nat
         ∧ examples2.secondRefused k = Some "context deadline exceeded"
         ∧ ∀ j, (j < k)%nat → examples2.secondRefused j = None.
Proof.
  assert (H : forex.returned
                (forex.getCryptoRates examples2.secondRefused [forex.CtxDone]
                   ["BTC/USD"; "ETH/USD"; "BTC/EUR"])
              = Some (∅, Some "context deadline exceeded")) by reflexivity.
  split; [exact H|].
  exact (proj2 (getCryptoRates_error_is_permit_error examples2.secondRefused
                  [forex.CtxDone] ["BTC/USD"; "ETH/USD"; "BTC/EUR"] ∅
                  "context deadline exceeded" H)).
Defined.

(** Witness of X21: one record merged, then the context done. *)
Lemma getCryptoRates_returns_after_deadline_witness :
  forex.returned
    (forex.getCryptoRates examples2.granted
       (forex.delivered [examples.btcUsd] ++ [forex.CtxDone])%list ["BTC/USD"])
  = Some ({[ "BTC" := {[ "USD" := 50000%float ]} ]}, None)
  ∧ forex.CtxDone ∈ (forex.delivered [examples.btcUsd] ++ [forex.CtxDone])%list.
Proof.
  assert (H : forex.returned
                (forex.getCryptoRates examples2.granted
                   (forex.delivered [examples.btcUsd] ++ [forex.CtxDone])%list
                   ["BTC/USD"])
              = Some ({[ "BTC" := {[ "USD" := 50000%float ]} ]}, None))
    by reflexivity.
  split; [exact H|].
  exact (proj1 (getCryptoRates_returns_after_deadline examples2.granted
                  (forex.delivered [examples.btcUsd] ++ [forex.CtxDone])%list
                  ["BTC/USD"] _ H)).
Defined.

(** Witness of X22: two fiat targets, both asked. *)
Lemma getFiatRates_asks_each_target_witness :
  fetch.asked
    (fetch.getFiatRates examples2.granted [forex.CtxDone] map_to_list
       examples2.ethTargets)
  ≡ₚ map_to_list examples2.ethTargets.
Proof.
  apply (proj2 (getFiatRates_asks_each_target map_to_list
                  rangeOrder_map_to_list examples2.granted [forex.CtxDone]
                  examples2.ethTargets)).
  intros j _. reflexivity.
Defined.

(** Witness of X23: with cryptos [BTC], [ETH] the rate asked for [USD] is the
    one to [ETH]. *)
Lemma fiat_pass_asks_last_crypto_only_witness :
  last [examples.btc; examples.eth] = Some examples.eth
  ∧ ("USD", "ETH")
    ∈ fetch.asked
        (fetch.getFiatRates examples2.granted [forex.CtxDone] map_to_list
           (forex.fiatTargets [examples.btc; examples.eth]
              [examples.usd; examples.eur])).
Proof.
  split; [reflexivity|].
  apply (proj1 (fiat_pass_asks_last_crypto_only map_to_list
                  rangeOrder_map_to_list examples2.granted [forex.CtxDone]
                  [examples.btc; examples.eth] [examples.usd; examples.eur]
                  examples.eth eq_refl (fun j _ => eq_refl))).
  split; [reflexivity|].
  exists examples.usd. split; [apply list_elem_of_here | reflexivity].
Defined.

(** Witness of X24: [USD -> BTC = 0.5] fetched, merged and looked up as
    [usd/btc]. *)
Lemma fetched_fiat_rate_is_served_witness :
  cache.Get golang.ToUpperASCII
    {| cache.fiatToCrypto :=
         forex.storageOf
           (forex.mergeResults
              [forex.Recv (forex.GetRate examples2.usdBtc "USD" "BTC").1 true;
               forex.CtxDone] ∅);
       cache.cryptoToFiat := ∅ |} "usd" "btc"
  = (directF2C "USD" "BTC" 0.5%float, None).
Proof.
  apply (fetched_fiat_rate_is_served golang.ToUpperASCII examples2.usdBtc
           "USD" "BTC"
           {| forex.Base := "USD"; forex.Results := {[ "BTC" := 0.5%float ]};
              forex.Updated := "2024-01-01 00:00:00"; forex.Ms := 3 |}
           0.5%float ∅ ∅ "usd" "btc"); reflexivity.
Defined.

(** Witness of X25: the crypto pass is refused its first permit, the fiat
    pass meets its deadline, and the scenario tables stay. *)
Lemma refused_permit_keeps_snapshot_witness :
  forex.CtxDone ∈ fetch.fiatEvents examples2.cryptoRefused
  ∧ ∃ lookup,
      fetch.GetAllRates examples2.cryptoRefused [examples.btc] [examples.usd]
      = Some lookup
      ∧ service.CryptoLookupErr lookup = Some "context deadline exceeded".
Proof.
  assert (Hdone : forex.CtxDone ∈ fetch.fiatEvents examples2.cryptoRefused).
  { apply list_elem_of_further, list_elem_of_here. }
  split; [exact Hdone|].
  destruct (refused_permit_keeps_snapshot examples2.cryptoRefused
              [examples.usd] [examples.btc] 0 "context deadline exceeded"
              ltac:(simpl; lia) ltac:(intros j Hj; lia) eq_refl Hdone)
    as (lookup & Hall & Herr & _).
  exists lookup. split; [exact Hall | exact Herr].
Defined.

(** Witness of X26: both passes quiet, both contexts done. *)
Lemma GetAllRates_waits_for_both_deadlines_witness :
  fetch.GetAllRates examples2.quiet [examples.btc] [examples.usd]
  = Some examples2.emptyLookUp
  ∧ forex.CtxDone ∈ fetch.cryptoEvents examples2.quiet
  ∧ forex.CtxDone ∈ fetch.fiatEvents examples2.quiet.
Proof.
  assert (H : fetch.GetAllRates examples2.quiet [examples.btc] [examples.usd]
              = Some examples2.emptyLookUp) by (vm_compute; reflexivity).
  split; [exact H|].
  exact (GetAllRates_waits_for_both_deadlines examples2.quiet [examples.btc]
           [examples.usd] examples2.emptyLookUp H eq_refl eq_refl).
Defined.

(** Witness of X27: two fiats and no crypto. *)
Lemma requests_of_empty_catalog_witness :
  forex.cryptoCombos [] [examples.usd; examples.eur] = []
  ∧ forex.fiatTargets [] [examples.usd; examples.eur] = ∅.
Proof.
  apply (requests_of_empty_catalog [] [examples.usd; examples.eur]).
  left. reflexivity.
Defined.
